(** * pyGAPS: dispatch and validation layer of the pore size distribution
      calculations ([src/pygaps/calculations/psd.py])

    The three entry points [mesopore_size_distribution],
    [micropore_size_distribution] and [dft_size_distribution] are embedded
    statement by statement.  Python exceptions and the calls made to the
    collaborators of the module (adsorbate property provider, PSD engines,
    plotting) are made explicit by a small trace-and-error monad.

    Arguments that the code compares with strings or with None are values
    of type [option string] (a [str] or [None]); arrays are lists of
    binary64 floats; the keyword arguments are a finite map.  What the
    module imports (registries of sub-models, thickness functions, property
    tables, the adsorbate class, the engines, the plot function) is not part
    of it and comes in through the class [Collaborators]. *)

From Stdlib Require Import PrimFloat Ascii String ZArith.
From stdpp Require Import base option list strings gmap.

Set Warnings "-inexact-float".
Open Scope string_scope.
Open Scope list_scope.

(** ** Python values *)

(** A numpy array of float64. *)
Definition ndarray : Type := list float.

(** The double quote character, for messages that contain one. *)
Definition dquote : string := String "034"%char EmptyString.

(** [str(x)] as used by [str.format] on a value that is a [str] or [None]. *)
Definition py_str (x : option string) : string :=
  match x with
  | Some s => s
  | None => "None"
  end.

(** [repr] of a [str] without quotes, backslashes or control characters
    (all registry names are of this kind). *)
Definition py_repr (s : string) : string := "'" +:+ s +:+ "'".

Fixpoint py_join (sep : string) (l : list string) : string :=
  match l with
  | [] => EmptyString
  | [s] => s
  | s :: l' => s +:+ sep +:+ py_join sep l'
  end.

(** [str] of a list of such strings: ['a', 'b']. *)
Definition py_str_list (l : list string) : string :=
  "[" +:+ py_join ", " (py_repr <$> l) +:+ "]".

(** [x in l] for [x] a [str] or [None] and [l] a list of [str]. *)
Definition py_in (x : option string) (l : list string) : bool :=
  match x with
  | Some s => bool_decide (s ∈ l)
  | None => false
  end.

(** ** Exceptions, collaborator calls and the monad *)

Inductive exn : Type :=
  | Exception (args : list string)
  | TypeError (msg : string)
  | UnboundLocalError (name : string)
  | Propagated (origin : string).

(** What a call into code outside this module does: it raises (the name of
    what was raised is kept) or returns. *)
Definition outcome (A : Type) : Type := string + A.

Inductive event : Type :=
  | Call_Adsorbate_from_list (gas : string)
  | Call_molar_mass
  | Call_liquid_density (temp : float)
  | Call_surface_tension (temp : float)
  | Call_get_prop (name : string)
  | Call_meniscus_geometry (branch : option string) (pore_geometry : string)
  | Call_psd_bjh (loading pressure : option ndarray) (pore_geometry : string)
      (t_model k_model : float → float) (liquid_density molar_mass : float)
  | Call_psd_dollimore_heal (loading pressure : option ndarray)
      (pore_geometry : string)
      (t_model k_model : float → float) (liquid_density molar_mass : float)
  | Call_psd_horvath_kawazoe (loading pressure : option ndarray)
      (t_exp : float) (pore_geometry : string)
      (maximum_adsorbed : option float)
      (adsorbate_properties adsorbent_properties : gmap string float)
  | Call_psd_dft_kernel_fit (pressure loading : option ndarray)
      (kernel_path : string)
  | Call_psd_plot (pore_widths pore_dist : ndarray)
      (log : option bool) (xmax : option Z).

(** A computation yields the calls it made, in order, and either the
    exception that ended it or its value. *)
Definition M (A : Type) : Type := list event * (exn + A).

Definition trace {A} (m : M A) : list event := m.1.
Definition result {A} (m : M A) : exn + A := m.2.

#[export] Instance M_ret : MRet M := λ A a, ([], inr a).
#[export] Instance M_bind : MBind M := λ A B f m,
  match m.2 with
  | inl e => (m.1, inl e)
  | inr a => ((m.1 ++ (f a).1), (f a).2)
  end.

Definition raise {A} (e : exn) : M A := ([], inl e).

(** A logged call to a collaborator; what it raises propagates. *)
Definition call {A} (ev : event) (o : outcome A) : M A :=
  ([ev], match o with inl s => inl (Propagated s) | inr a => inr a end).

(** [if c: raise e] *)
Definition raise_if (c : bool) (e : exn) : M unit :=
  if c then raise e else mret tt.

(** Reading a local variable that only some branches assign. *)
Definition local {A} (name : string) (x : option A) : M A :=
  match x with
  | Some a => mret a
  | None => raise (UnboundLocalError name)
  end.

(** [x[::-1]] *)
Definition reversed (x : option ndarray) : M (option ndarray) :=
  match x with
  | Some a => mret (Some (rev a))
  | None => raise (TypeError "'NoneType' object is not subscriptable")
  end.

(** ** The isotherm and the collaborators *)

(** The isotherm class lives outside this module; it is represented by what
    its attributes and accessors return ([None] when a branch is missing). *)
Record Isotherm : Type := {
  mode_adsorbent : string;
  mode_pressure : string;
  gas : string;
  t_exp : float;
  loading_ads : string → option ndarray;
  pressure_ads : option ndarray;
  loading_des : string → option ndarray;
  pressure_des : option ndarray;
  loading_at : float → option float;
}.

(** An adsorbate object, as the record of its methods. *)
Record Adsorbate : Type := {
  molar_mass : outcome float;
  liquid_density : float → outcome float;
  surface_tension : float → outcome float;
  get_prop : string → outcome float;
}.

(** Everything [psd.py] imports. *)
Class Collaborators : Type := {
  _THICKNESS_MODELS : list string;
  _ADSORBENT_MODELS : list string;
  thickness_halsey : float → float;
  thickness_harkins_jura : float → float;
  PROPERTIES_CARBON : gmap string float;
  PROPERTIES_OXIDE_ION : gmap string float;
  Adsorbate_from_list : string → outcome Adsorbate;
  meniscus_geometry : option string → string → outcome string;
  kelvin_radius_std :
    float → string → float → float → float → float → float;
  psd_bjh :
    option ndarray → option ndarray → string →
    (float → float) → (float → float) → float → float →
    outcome (ndarray * ndarray);
  psd_dollimore_heal :
    option ndarray → option ndarray → string →
    (float → float) → (float → float) → float → float →
    outcome (ndarray * ndarray);
  psd_horvath_kawazoe :
    option ndarray → option ndarray → float → string → option float →
    gmap string float → gmap string float → outcome (ndarray * ndarray);
  psd_dft_kernel_fit :
    option ndarray → option ndarray → string → outcome (ndarray * ndarray);
  psd_plot : ndarray → ndarray → option bool → option Z → outcome unit;
}.

(** ** Module constants *)

Definition _MESO_PSD_MODELS : list string := ["BJH"; "DH"; "HK"].
Definition _MICRO_PSD_MODELS : list string := ["HK"].
Definition _PORE_GEOMETRIES : list string := ["slit"; "cylinder"; "sphere"].

(** [d.get(k)] on the keyword-argument dict: [None] when the key is absent
    and when it is bound to [None]. *)
Definition dict_get (d : gmap string (option string)) (k : string)
  : option string := d !! k ≫= id.

(** [k in d] *)
Definition dict_has (d : gmap string (option string)) (k : string) : bool :=
  bool_decide (is_Some (d !! k)).

(** ** Messages of the exceptions raised by the module *)

Definition exn_not_per_mass : exn :=
  Exception ["The isotherm must be in per mass of adsorbent."
             +:+ "First convert it using implicit functions"].

Definition exn_not_relative : exn :=
  Exception ["The isotherm must be in relative pressure mode."
             +:+ "First convert it using implicit functions"].

Definition exn_no_model : exn :=
  Exception ["Specify a model to generate the pore size"
             +:+ " distribution e.g. psd_model="
             +:+ dquote +:+ "BJH" +:+ dquote].

Definition exn_psd_model (psd_model : option string) (models : list string)
  : exn :=
  Exception ["Model " +:+ py_str psd_model +:+ " not an option for psd.";
             "Available models are " +:+ py_str_list models].

Definition exn_geometry (pore_geometry : string) : exn :=
  Exception ["Geometry " +:+ pore_geometry
             +:+ " not an option for pore size distribution.";
             "Available geometries are " +:+ py_str_list _PORE_GEOMETRIES].

Definition exn_no_branch : exn :=
  Exception ["Specify the isotherm part to select for the calculation"
             +:+ "'branch'= either 'adsorption' or 'desorption'"].

Definition exn_branch (branch : option string) : exn :=
  Exception ["Branch " +:+ py_str branch +:+ " not an option for psd.";
             "Select either 'adsorption' or 'desorption'"].

Definition exn_sub_model (model : option string) (models : list string)
  : exn :=
  Exception ["Model " +:+ py_str model
             +:+ " not an option for pore size distribution.";
             "Available models are " +:+ py_str_list models].

Definition exn_no_branch_data : exn :=
  Exception ["The isotherm does not have the required branch for"
             +:+ " this calculation"].

(** ** The three entry points *)

Section psd.
Context `{!Collaborators}.

Definition mesopore_size_distribution (isotherm : Isotherm)
    (psd_model : option string) (pore_geometry : string) (verbose : bool)
    (model_parameters : gmap string (option string))
  : M (gmap string ndarray) :=
  (* Function parameter checks *)
  raise_if (bool_decide (isotherm.(mode_adsorbent) ≠ "mass"))
    exn_not_per_mass;;
  raise_if (bool_decide (isotherm.(mode_pressure) ≠ "relative"))
    exn_not_relative;;
  raise_if (bool_decide (psd_model = None)) exn_no_model;;
  raise_if (negb (py_in psd_model _MESO_PSD_MODELS))
    (exn_psd_model psd_model _MESO_PSD_MODELS);;
  raise_if (bool_decide (pore_geometry ∉ _PORE_GEOMETRIES))
    (exn_geometry pore_geometry);;
  let branch := dict_get model_parameters "branch" in
  raise_if (bool_decide (branch = None)) exn_no_branch;;
  raise_if (negb (py_in branch ["adsorption"; "desorption"]))
    (exn_branch branch);;
  let thickness_model :=
    if dict_has model_parameters "thickness_model"
    then dict_get model_parameters "thickness_model"
    else Some "Harkins/Jura" in
  raise_if (negb (py_in thickness_model _THICKNESS_MODELS))
    (exn_sub_model thickness_model _THICKNESS_MODELS);;
  (* Get required adsorbate properties *)
  adsorbate ← call (Call_Adsorbate_from_list isotherm.(gas))
                   (Adsorbate_from_list isotherm.(gas));
  molar_mass ← call Call_molar_mass adsorbate.(molar_mass);
  liquid_density ← call (Call_liquid_density isotherm.(t_exp))
                        (adsorbate.(liquid_density) isotherm.(t_exp));
  surface_tension ← call (Call_surface_tension isotherm.(t_exp))
                         (adsorbate.(surface_tension) isotherm.(t_exp));
  (* Read data in, depending on branch requested *)
  '(loading, pressure) ←
    (if bool_decide (branch = Some "adsorption") then
       loading ← reversed (isotherm.(loading_ads) "mmol");
       pressure ← reversed isotherm.(pressure_ads);
       mret (Some loading, Some pressure)
     else if bool_decide (branch = Some "desorption") then
       mret (Some (isotherm.(loading_des) "mmol"),
             Some isotherm.(pressure_des))
     else mret (None, None));
  loading ← local "loading" loading;
  raise_if (bool_decide (loading = None)) exn_no_branch_data;;
  (* Thickness model definitions *)
  let t_model :=
    if bool_decide (thickness_model = Some "Halsey")
    then Some thickness_halsey
    else if bool_decide (thickness_model = Some "Harkins/Jura")
    then Some thickness_harkins_jura
    else None in
  (* Kelvin model definitions *)
  m_geometry ← call (Call_meniscus_geometry branch pore_geometry)
                    (meniscus_geometry branch pore_geometry);
  let k_model := λ p,
    kelvin_radius_std p m_geometry isotherm.(t_exp)
                      liquid_density molar_mass surface_tension in
  (* Call specified pore size distribution function *)
  '(pore_widths, pore_dist) ←
    (if bool_decide (psd_model = Some "BJH") then
       pressure ← local "pressure" pressure;
       t_model ← local "t_model" t_model;
       r ← call (Call_psd_bjh loading pressure pore_geometry
                              t_model k_model liquid_density molar_mass)
                (psd_bjh loading pressure pore_geometry
                         t_model k_model liquid_density molar_mass);
       mret (Some r.1, Some r.2)
     else if bool_decide (psd_model = Some "DH") then
       pressure ← local "pressure" pressure;
       t_model ← local "t_model" t_model;
       r ← call (Call_psd_dollimore_heal loading pressure pore_geometry
                   t_model k_model liquid_density molar_mass)
                (psd_dollimore_heal loading pressure pore_geometry
                   t_model k_model liquid_density molar_mass);
       mret (Some r.1, Some r.2)
     else mret (None, None));
  pore_widths ← local "pore_widths" pore_widths;
  pore_dist ← local "pore_dist" pore_dist;
  let result_dict : gmap string ndarray :=
    {[ "pore_widths" := pore_widths; "pore_distribution" := pore_dist ]} in
  (if verbose
   then call (Call_psd_plot pore_widths pore_dist None None)
             (psd_plot pore_widths pore_dist None None)
   else mret tt);;
  mret result_dict.

Definition micropore_size_distribution (isotherm : Isotherm)
    (psd_model : option string) (pore_geometry : string) (verbose : bool)
    (model_parameters : gmap string (option string))
  : M (gmap string ndarray) :=
  (* Function parameter checks *)
  raise_if (bool_decide (isotherm.(mode_adsorbent) ≠ "mass"))
    exn_not_per_mass;;
  raise_if (bool_decide (isotherm.(mode_pressure) ≠ "relative"))
    exn_not_relative;;
  raise_if (bool_decide (psd_model = None)) exn_no_model;;
  raise_if (negb (py_in psd_model _MICRO_PSD_MODELS))
    (exn_psd_model psd_model _MICRO_PSD_MODELS);;
  raise_if (bool_decide (pore_geometry ∉ _PORE_GEOMETRIES))
    (exn_geometry pore_geometry);;
  let adsorbent_model :=
    if dict_has model_parameters "adsorbent_model"
    then dict_get model_parameters "adsorbent_model"
    else Some "Carbon(HK)" in
  raise_if (negb (py_in adsorbent_model _ADSORBENT_MODELS))
    (exn_sub_model adsorbent_model _ADSORBENT_MODELS);;
  (* Get adsorbate properties *)
  adsorbate ← call (Call_Adsorbate_from_list isotherm.(gas))
                   (Adsorbate_from_list isotherm.(gas));
  molecular_diameter ← call (Call_get_prop "molecular_diameter")
                            (adsorbate.(get_prop) "molecular_diameter");
  polarizability ← call (Call_get_prop "polarizability")
                        (adsorbate.(get_prop) "polarizability");
  magnetic_susceptibility ←
    call (Call_get_prop "magnetic_susceptibility")
         (adsorbate.(get_prop) "magnetic_susceptibility");
  surface_density ← call (Call_get_prop "surface_density")
                         (adsorbate.(get_prop) "surface_density");
  let adsorbate_properties : gmap string float :=
    {[ "molecular_diameter" := molecular_diameter;
       "polarizability" := polarizability;
       "magnetic_susceptibility" := magnetic_susceptibility;
       "surface_density" := surface_density ]} in
  (* Read data in *)
  let loading := isotherm.(loading_ads) "mmol" in
  let pressure := isotherm.(pressure_ads) in
  let maximum_adsorbed := isotherm.(loading_at) 0.9%float in
  (* Adsorbent model definitions *)
  let adsorbent_properties :=
    if bool_decide (adsorbent_model = Some "Carbon(HK)")
    then Some PROPERTIES_CARBON
    else if bool_decide (adsorbent_model = Some "OxideIon(SF)")
    then Some PROPERTIES_OXIDE_ION
    else None in
  (* Call specified pore size distribution function *)
  '(pore_widths, pore_dist) ←
    (if bool_decide (psd_model = Some "HK") then
       adsorbent_properties ←
         local "adsorbent_properties" adsorbent_properties;
       r ← call (Call_psd_horvath_kawazoe loading pressure isotherm.(t_exp)
                   pore_geometry maximum_adsorbed
                   adsorbate_properties adsorbent_properties)
                (psd_horvath_kawazoe loading pressure isotherm.(t_exp)
                   pore_geometry maximum_adsorbed
                   adsorbate_properties adsorbent_properties);
       mret (Some r.1, Some r.2)
     else mret (None, None));
  pore_widths ← local "pore_widths" pore_widths;
  pore_dist ← local "pore_dist" pore_dist;
  let result_dict : gmap string ndarray :=
    {[ "pore_widths" := pore_widths; "pore_distribution" := pore_dist ]} in
  (if verbose
   then call (Call_psd_plot pore_widths pore_dist (Some false) (Some 2%Z))
             (psd_plot pore_widths pore_dist (Some false) (Some 2%Z))
   else mret tt);;
  mret result_dict.

Definition dft_size_distribution (isotherm : Isotherm) (kernel_path : string)
    (verbose : bool) (model_parameters : gmap string (option string))
  : M (gmap string ndarray) :=
  (* Read data in *)
  let loading := isotherm.(loading_ads) "mmol" in
  let pressure := isotherm.(pressure_ads) in
  r ← call (Call_psd_dft_kernel_fit pressure loading kernel_path)
           (psd_dft_kernel_fit pressure loading kernel_path);
  let pore_widths := r.1 in
  let pore_dist := r.2 in
  let result_dict : gmap string ndarray :=
    {[ "pore_widths" := pore_widths; "pore_distribution" := pore_dist ]} in
  (if verbose
   then call (Call_psd_plot pore_widths pore_dist None None)
             (psd_plot pore_widths pore_dist None None)
   else mret tt);;
  mret result_dict.

End psd.

(** ** A test double for the collaborators

    Used to run the entry points on concrete inputs: the property provider
    knows one gas, the engines echo the arrays they are handed (pressure as
    widths, loading as distribution), plotting returns normally. *)

Module Sample.

Definition nitrogen : Adsorbate := {|
  molar_mass := inr 28.0134%float;
  liquid_density := λ _, inr 0.8076%float;
  surface_tension := λ _, inr 8.85%float;
  get_prop := λ _, inr 1%float;
|}.

Definition echo (loading pressure : option ndarray)
  : outcome (ndarray * ndarray) :=
  inr (default [] pressure, default [] loading).

Definition collaborators : Collaborators := {|
  _THICKNESS_MODELS := ["Halsey"; "Harkins/Jura"];
  _ADSORBENT_MODELS := ["Carbon(HK)"; "OxideIon(SF)"];
  thickness_halsey := λ p, p;
  thickness_harkins_jura := λ p, (p + 1)%float;
  PROPERTIES_CARBON := {[ "molecular_diameter" := 0.34%float ]};
  PROPERTIES_OXIDE_ION := {[ "molecular_diameter" := 0.276%float ]};
  Adsorbate_from_list := λ gas,
    if bool_decide (gas = "N2") then inr nitrogen else inl "ParameterError";
  meniscus_geometry := λ branch pore_geometry, inr "cylindrical";
  kelvin_radius_std := λ p _ _ _ _ _, p;
  psd_bjh := λ l p _ _ _ _ _, echo l p;
  psd_dollimore_heal := λ l p _ _ _ _ _, echo l p;
  psd_horvath_kawazoe := λ l p _ _ _ _ _, echo l p;
  psd_dft_kernel_fit := λ p l _, echo l p;
  psd_plot := λ _ _ _ _, inr ();
|}.

(** The isotherm of the scenario: adsorption branch at the given relative
    pressures with strictly increasing loadings, and a desorption branch. *)
Definition iso : Isotherm := {|
  mode_adsorbent := "mass";
  mode_pressure := "relative";
  gas := "N2";
  t_exp := 77.355%float;
  loading_ads := λ _, Some [1; 2; 3; 4; 5; 6]%float;
  pressure_ads := Some [0.1; 0.3; 0.5; 0.7; 0.9; 0.99]%float;
  loading_des := λ _, Some [6; 5.5; 4.5; 2.5]%float;
  pressure_des := Some [0.99; 0.8; 0.6; 0.2]%float;
  loading_at := λ p, Some 5%float;
|}.

(** The same isotherm with one branch missing, or in another basis. *)
Definition without_ads (i : Isotherm) : Isotherm := {|
  mode_adsorbent := i.(mode_adsorbent);
  mode_pressure := i.(mode_pressure);
  gas := i.(gas);
  t_exp := i.(t_exp);
  loading_ads := λ _, None;
  pressure_ads := None;
  loading_des := i.(loading_des);
  pressure_des := i.(pressure_des);
  loading_at := λ _, None;
|}.

Definition without_des (i : Isotherm) : Isotherm := {|
  mode_adsorbent := i.(mode_adsorbent);
  mode_pressure := i.(mode_pressure);
  gas := i.(gas);
  t_exp := i.(t_exp);
  loading_ads := i.(loading_ads);
  pressure_ads := i.(pressure_ads);
  loading_des := λ _, None;
  pressure_des := None;
  loading_at := i.(loading_at);
|}.

Definition with_modes (i : Isotherm) (ma mp : string) : Isotherm := {|
  mode_adsorbent := ma;
  mode_pressure := mp;
  gas := i.(gas);
  t_exp := i.(t_exp);
  loading_ads := i.(loading_ads);
  pressure_ads := i.(pressure_ads);
  loading_des := i.(loading_des);
  pressure_des := i.(pressure_des);
  loading_at := i.(loading_at);
|}.

End Sample.

(** ** The two classical operations, side by side *)

Inductive operation : Type := Mesoporous | Microporous.

Definition registry (op : operation) : list string :=
  match op with
  | Mesoporous => _MESO_PSD_MODELS
  | Microporous => _MICRO_PSD_MODELS
  end.

Definition classical_psd `{!Collaborators} (op : operation)
  : Isotherm → option string → string → bool →
    gmap string (option string) → M (gmap string ndarray) :=
  match op with
  | Mesoporous => mesopore_size_distribution
  | Microporous => micropore_size_distribution
  end.

(** The preconditions common to both operations as the specification lists
    them, in its order: the exception of the first one that fails, [None]
    when all four hold.  This definition follows the specification's words;
    it is compared with the code below. *)
Definition first_failed_precondition (models : list string)
    (isotherm : Isotherm) (psd_model : option string)
    (pore_geometry : string) : option exn :=
  if bool_decide (isotherm.(mode_adsorbent) = "mass") then
    if bool_decide (isotherm.(mode_pressure) = "relative") then
      match psd_model with
      | None => Some exn_no_model
      | Some name =>
          if bool_decide (name ∈ models) then
            if bool_decide (pore_geometry ∈ _PORE_GEOMETRIES) then None
            else Some (exn_geometry pore_geometry)
          else Some (exn_psd_model psd_model models)
      end
    else Some exn_not_relative
  else Some exn_not_per_mass.

(** ** Inputs that get as far as the engine *)

(** The thickness model named by the configuration is registered and is one
    of the two the module has a definition for. *)
Definition thickness_usable `{!Collaborators}
    (model_parameters : gmap string (option string)) : Prop :=
  match model_parameters !! "thickness_model" with
  | None => "Harkins/Jura" ∈ _THICKNESS_MODELS
  | Some v =>
      ∃ name, v = Some name ∧ name ∈ _THICKNESS_MODELS ∧
              (name = "Halsey" ∨ name = "Harkins/Jura")
  end.

(** Otherwise valid inputs of the mesoporous operation: the preconditions
    hold, the branch is one of the two, and the property provider and the
    meniscus selection return normally. *)
Record meso_ready `{!Collaborators} (isotherm : Isotherm)
    (psd_model : option string) (pore_geometry : string)
    (model_parameters : gmap string (option string)) : Prop := {
  meso_preconditions :
    first_failed_precondition _MESO_PSD_MODELS isotherm psd_model
      pore_geometry = None;
  meso_branch :
    dict_get model_parameters "branch" = Some "adsorption" ∨
    dict_get model_parameters "branch" = Some "desorption";
  meso_lookups :
    ∃ adsorbate mm ld st,
      Adsorbate_from_list isotherm.(gas) = inr adsorbate ∧
      adsorbate.(molar_mass) = inr mm ∧
      adsorbate.(liquid_density) isotherm.(t_exp) = inr ld ∧
      adsorbate.(surface_tension) isotherm.(t_exp) = inr st;
  meso_meniscus :
    ∃ mg, meniscus_geometry (dict_get model_parameters "branch")
            pore_geometry = inr mg;
}.

(** Otherwise valid inputs of the microporous operation. *)
Record micro_ready `{!Collaborators} (isotherm : Isotherm)
    (psd_model : option string) (pore_geometry : string) : Prop := {
  micro_preconditions :
    first_failed_precondition _MICRO_PSD_MODELS isotherm psd_model
      pore_geometry = None;
  micro_lookups :
    ∃ adsorbate,
      Adsorbate_from_list isotherm.(gas) = inr adsorbate ∧
      ∀ name, name ∈ ["molecular_diameter"; "polarizability";
                      "magnetic_susceptibility"; "surface_density"] →
              ∃ x, adsorbate.(get_prop) name = inr x;
}.

(** The adsorbent model named by the configuration is registered and is one
    of the two the module has properties for. *)
Definition adsorbent_usable `{!Collaborators}
    (model_parameters : gmap string (option string)) : Prop :=
  match model_parameters !! "adsorbent_model" with
  | None => "Carbon(HK)" ∈ _ADSORBENT_MODELS
  | Some v =>
      ∃ name, v = Some name ∧ name ∈ _ADSORBENT_MODELS ∧
              (name = "Carbon(HK)" ∨ name = "OxideIon(SF)")
  end.

(** The isotherm has arrays on the branch the configuration asks for. *)
Definition branch_has_data (isotherm : Isotherm)
    (model_parameters : gmap string (option string)) : Prop :=
  (dict_get model_parameters "branch" = Some "adsorption" ∧
   is_Some (isotherm.(loading_ads) "mmol") ∧
   is_Some isotherm.(pressure_ads)) ∨
  (dict_get model_parameters "branch" = Some "desorption" ∧
   is_Some (isotherm.(loading_des) "mmol")).

(** ** Classifying the calls of a trace *)

Definition is_engine_call (ev : event) : bool :=
  match ev with
  | Call_psd_bjh _ _ _ _ _ _ _ | Call_psd_dollimore_heal _ _ _ _ _ _ _
  | Call_psd_horvath_kawazoe _ _ _ _ _ _ _ | Call_psd_dft_kernel_fit _ _ _ =>
      true
  | _ => false
  end.

Definition is_plot_call (ev : event) : bool :=
  match ev with
  | Call_psd_plot _ _ _ _ => true
  | _ => false
  end.

(** No call of the kind [P] is made by [m]. *)
Definition avoids {A} (P : event → bool) (m : M A) : Prop :=
  Forall (λ ev, P ev = false) (trace m).

(** [m] ends in an exception, whatever the collaborators do. *)
Definition never_returns {A} (m : M A) : Prop :=
  ∀ a, result m ≠ inr a.

(** The loading and pressure arrays an engine call was handed. *)
Definition engine_arrays (ev : event)
  : option (option ndarray * option ndarray) :=
  match ev with
  | Call_psd_bjh l p _ _ _ _ _ | Call_psd_dollimore_heal l p _ _ _ _ _
  | Call_psd_horvath_kawazoe l p _ _ _ _ _ | Call_psd_dft_kernel_fit p l _ =>
      Some (l, p)
  | _ => None
  end.

(** The four property lookups of the mesoporous operation. *)
Definition property_lookups (isotherm : Isotherm) : list event :=
  [Call_Adsorbate_from_list isotherm.(gas); Call_molar_mass;
   Call_liquid_density isotherm.(t_exp);
   Call_surface_tension isotherm.(t_exp)].

(** The thickness function a mesoporous engine call was handed. *)
Definition engine_thickness (ev : event) : option (float → float) :=
  match ev with
  | Call_psd_bjh _ _ _ t _ _ _ | Call_psd_dollimore_heal _ _ _ t _ _ _ =>
      Some t
  | _ => None
  end.

(** What a Horvath-Kawazoe engine call was handed: loading, pressure, the
    limiting loading and the adsorbent properties. *)
Definition hk_inputs (ev : event)
  : option (option ndarray * option ndarray * option float *
            gmap string float) :=
  match ev with
  | Call_psd_horvath_kawazoe l p _ _ limit _ adsorbent =>
      Some (l, p, limit, adsorbent)
  | _ => None
  end.

(** How the run of an operation with [verbose] relates to the run without
    it, [quiet]: the quiet run makes no plot call; when it ends in an
    exception, so does the verbose run, after the same calls; when it returns
    the dict of [pore_widths] and [pore_dist], the verbose run makes the
    same calls followed by one plot call on these two arrays (with the scale
    arguments [log] and [xmax]) and returns the same dict, unless plotting
    itself raises. *)
Definition differs_by_plot `{!Collaborators} (log : option bool)
    (xmax : option Z) (quiet loud : M (gmap string ndarray)) : Prop :=
  avoids is_plot_call quiet ∧
  (∀ e, result quiet = inl e → loud = quiet) ∧
  (∀ d, result loud = inr d → result quiet = inr d) ∧
  (∀ d, result quiet = inr d →
     ∃ pore_widths pore_dist,
       d = {[ "pore_widths" := pore_widths;
              "pore_distribution" := pore_dist ]} ∧
       trace loud
       = trace quiet ++ [Call_psd_plot pore_widths pore_dist log xmax] ∧
       result loud
       = match psd_plot pore_widths pore_dist log xmax with
         | inl s => inl (Propagated s)
         | inr _ => inr d
         end).

(** ** Statements about every run *)

(** [Φ] holds of the calls made by [m] and of how [m] ends. *)
Definition post {A} (Φ : list event → exn + A → Prop) (m : M A) : Prop :=
  Φ (trace m) (result m).

(** The two calls that matter for the order of a run. *)
Inductive milestone : Type := EngineCalled | Plotted.

Definition milestone_of (ev : event) : option milestone :=
  if is_engine_call ev then Some EngineCalled
  else if is_plot_call ev then Some Plotted
  else None.

Definition milestones (calls : list event) : list milestone :=
  omap milestone_of calls.

(** The calls of a run are in order: before the engine call there is no
    engine call and no plot call; the engine call is the last call of the
    run or is followed by exactly one more call, which is a plot call made
    under [verbose]. *)
Fixpoint calls_in_order (verbose : bool) (calls : list event) : bool :=
  match calls with
  | [] => true
  | ev :: rest =>
      if is_engine_call ev then
        match rest with
        | [] => true
        | [next] => is_plot_call next && verbose
        | _ => false
        end
      else if is_plot_call ev then false
      else calls_in_order verbose rest
  end.

(** The order of a run: its calls are in order, and a value is returned
    only after the engine call (and, under [verbose], after the plot
    call). *)
Definition engine_before_plot {A} (verbose : bool) (m : M A) : Prop :=
  calls_in_order verbose (trace m) = true ∧
  (∀ a, result m = inr a →
        milestones (trace m)
        = EngineCalled :: (if verbose then [Plotted] else [])).

(** The call event of the mesoporous engine that [psd.py] selects for a
    model name: [psd_bjh] for 'BJH', [psd_dollimore_heal] for 'DH'. *)
Definition meso_engine_event (psd_model : option string)
  : option (option ndarray → option ndarray → string →
            (float → float) → (float → float) → float → float → event) :=
  if bool_decide (psd_model = Some "BJH") then Some Call_psd_bjh
  else if bool_decide (psd_model = Some "DH")
  then Some Call_psd_dollimore_heal
  else None.

(** Two isotherms that agree on everything the module reads but the
    desorption arrays, and two that agree on everything it reads but the
    adsorption arrays. *)
Definition same_but_desorption (i j : Isotherm) : Prop :=
  i.(mode_adsorbent) = j.(mode_adsorbent) ∧
  i.(mode_pressure) = j.(mode_pressure) ∧
  i.(gas) = j.(gas) ∧ i.(t_exp) = j.(t_exp) ∧
  i.(loading_ads) "mmol" = j.(loading_ads) "mmol" ∧
  i.(pressure_ads) = j.(pressure_ads).

Definition same_but_adsorption (i j : Isotherm) : Prop :=
  i.(mode_adsorbent) = j.(mode_adsorbent) ∧
  i.(mode_pressure) = j.(mode_pressure) ∧
  i.(gas) = j.(gas) ∧ i.(t_exp) = j.(t_exp) ∧
  i.(loading_des) "mmol" = j.(loading_des) "mmol" ∧
  i.(pressure_des) = j.(pressure_des).

(** A call of the mesoporous operation that passes its validation: the
    common preconditions hold, the branch is one of the two and the
    thickness model is usable. *)
Definition meso_ready_but_lookups `{!Collaborators} (isotherm : Isotherm)
    (psd_model : option string) (pore_geometry : string)
    (model_parameters : gmap string (option string)) : Prop :=
  first_failed_precondition _MESO_PSD_MODELS isotherm psd_model
    pore_geometry = None ∧
  (dict_get model_parameters "branch" = Some "adsorption" ∨
   dict_get model_parameters "branch" = Some "desorption") ∧
  thickness_usable model_parameters.

(** ** Further inputs for running the entry points *)

Module Fixtures.

(** The scenario isotherm measured with a gas the test property provider
    does not know. *)
Definition xenon : Isotherm := {|
  mode_adsorbent := Sample.iso.(mode_adsorbent);
  mode_pressure := Sample.iso.(mode_pressure);
  gas := "Xe";
  t_exp := Sample.iso.(t_exp);
  loading_ads := Sample.iso.(loading_ads);
  pressure_ads := Sample.iso.(pressure_ads);
  loading_des := Sample.iso.(loading_des);
  pressure_des := Sample.iso.(pressure_des);
  loading_at := Sample.iso.(loading_at);
|}.

(** The test collaborators with a kernel file that cannot be read. *)
Definition no_kernel : Collaborators := {|
  _THICKNESS_MODELS := @_THICKNESS_MODELS Sample.collaborators;
  _ADSORBENT_MODELS := @_ADSORBENT_MODELS Sample.collaborators;
  thickness_halsey := @thickness_halsey Sample.collaborators;
  thickness_harkins_jura := @thickness_harkins_jura Sample.collaborators;
  PROPERTIES_CARBON := @PROPERTIES_CARBON Sample.collaborators;
  PROPERTIES_OXIDE_ION := @PROPERTIES_OXIDE_ION Sample.collaborators;
  Adsorbate_from_list := @Adsorbate_from_list Sample.collaborators;
  meniscus_geometry := @meniscus_geometry Sample.collaborators;
  kelvin_radius_std := @kelvin_radius_std Sample.collaborators;
  psd_bjh := @psd_bjh Sample.collaborators;
  psd_dollimore_heal := @psd_dollimore_heal Sample.collaborators;
  psd_horvath_kawazoe := @psd_horvath_kawazoe Sample.collaborators;
  psd_dft_kernel_fit := λ _ _ _, inl "FileNotFoundError";
  psd_plot := @psd_plot Sample.collaborators;
|}.

End Fixtures.

(** ** Equations of the monad *)

(** The computation [m] preceded by the call [ev]. *)
Definition after {A} (ev : event) (m : M A) : M A := (ev :: m.1, m.2).

Section monad_equations.
Context {A B : Type}.
Implicit Types (k : A → M B) (e : exn) (ev : event).

Lemma bind_mret (a : A) k : mret a ≫= k = k a.
Proof. unfold mbind, M_bind. simpl. by destruct (k a). Qed.

Lemma bind_raise e k : raise e ≫= k = raise e.
Proof. reflexivity. Qed.

Lemma bind_call_returns ev (a : A) k :
  call ev (inr a) ≫= k = after ev (k a).
Proof. reflexivity. Qed.

Lemma bind_call_raises ev (s : string) k :
  call ev (inl s) ≫= k = ([ev], inl (Propagated s)).
Proof. reflexivity. Qed.

Lemma bind_after ev (m : M A) k : after ev m ≫= k = after ev (m ≫= k).
Proof. destruct m as [t [e|a]]; reflexivity. Qed.

End monad_equations.

Lemma bind_raise_if_true {B} e (k : unit → M B) :
  raise_if true e ≫= k = raise e.
Proof. reflexivity. Qed.

Lemma bind_raise_if_false {B} e (k : unit → M B) :
  raise_if false e ≫= k = k ().
Proof. apply bind_mret. Qed.

Lemma bind_assoc {A B C} (m : M A) (f : A → M B) (g : B → M C) :
  (m ≫= f) ≫= g = m ≫= (λ a, f a ≫= g).
Proof.
  destruct m as [t [e|a]]; [reflexivity|].
  unfold mbind, M_bind; simpl.
  destruct (f a) as [t' [e'|b]]; simpl; [reflexivity|].
  by rewrite app_assoc.
Qed.

Lemma trace_after {A} ev (m : M A) : trace (after ev m) = ev :: trace m.
Proof. reflexivity. Qed.

Lemma result_after {A} ev (m : M A) : result (after ev m) = result m.
Proof. reflexivity. Qed.

Lemma bind_local_bound {A B} name (a : A) (k : A → M B) :
  local name (Some a) ≫= k = k a.
Proof. apply bind_mret. Qed.

Lemma bind_local_unbound {A B} name (k : A → M B) :
  local name None ≫= k = raise (UnboundLocalError name).
Proof. reflexivity. Qed.

(** Conditions that the context settles. *)
Ltac decide_conditions :=
  repeat match goal with
  | |- context [bool_decide ?P] =>
      first [ rewrite (bool_decide_eq_true_2 P) by done
            | rewrite (bool_decide_eq_false_2 P) by done ]
  end.

(** Running an entry point forward over the steps whose outcome is known. *)
Ltac run :=
  repeat first
    [ rewrite bind_raise_if_false
    | rewrite bind_raise_if_true
    | rewrite bind_call_returns
    | rewrite bind_call_raises
    | rewrite bind_local_bound
    | rewrite bind_local_unbound
    | rewrite bind_mret
    | rewrite bind_raise
    | rewrite bind_after
    | rewrite bind_assoc
    | rewrite trace_after
    | rewrite result_after
    | progress cbv beta iota ].

(** Case analysis on what the next collaborator call does. *)
Ltac call_outcome :=
  match goal with
  | |- context [call _ ?o] => destruct o as [?|[]] eqn:?
  end; run.

(** ** Properties of all runs *)

Section all_runs.
Context {A B : Type} (P : event → bool).
Implicit Types (m : M A) (k : A → M B).

Lemma never_returns_raise e : never_returns (raise (A:=A) e).
Proof. by intros a. Qed.

Lemma never_returns_bind m k :
  (∀ a, never_returns (k a)) → never_returns (m ≫= k).
Proof.
  intros Hk b. destruct m as [t [e|a]]; [done|].
  unfold mbind, M_bind, result; simpl. apply Hk.
Qed.

Lemma avoids_mret (a : A) : avoids P (mret a).
Proof. constructor. Qed.

Lemma avoids_raise e : avoids P (raise (A:=A) e).
Proof. constructor. Qed.

Lemma avoids_call ev (o : outcome A) : P ev = false → avoids P (call ev o).
Proof. intros Hev. by repeat constructor. Qed.

Lemma avoids_local name (x : option A) : avoids P (local name x).
Proof. destruct x; constructor. Qed.

Lemma avoids_bind m k :
  avoids P m → (∀ a, avoids P (k a)) → avoids P (m ≫= k).
Proof.
  intros Hm Hk. destruct m as [t [e|a]]; [done|].
  unfold avoids, mbind, M_bind, trace in *; simpl in *.
  apply Forall_app. split; [done|apply Hk].
Qed.

End all_runs.

Section not_raised.
Context {A B : Type} (e : exn).
Implicit Types (m : M A) (k : A → M B).

Lemma not_raised_bind m k :
  result m ≠ inl e → (∀ a, result (k a) ≠ inl e) →
  result (m ≫= k) ≠ inl e.
Proof.
  intros Hm Hk. destruct m as [t [e'|a]].
  - intros [= ->]. by apply Hm.
  - unfold mbind, M_bind, result; simpl. apply Hk.
Qed.

Lemma not_raised_call ev (o : outcome A) :
  (∀ s, e ≠ Propagated s) → result (call ev o) ≠ inl e.
Proof. intros He. destruct o as [s|a]; [|done]. intros [= <-]. by eapply He. Qed.

Lemma not_raised_local name (x : option A) :
  e ≠ UnboundLocalError name → result (local name x) ≠ inl e.
Proof. intros He. destruct x; [done|]. by intros [= <-]. Qed.

End not_raised.

Lemma not_raised_raise_if e c e' :
  e ≠ e' → result (raise_if c e') ≠ inl e.
Proof. intros He. destruct c; [|done]. by intros [= <-]. Qed.

Lemma avoids_raise_if P c e : avoids P (raise_if c e).
Proof. destruct c; constructor. Qed.

Lemma avoids_reversed P x : avoids P (reversed x).
Proof. destruct x; constructor. Qed.

(** No call of the kind [P] in a computation built from the steps above;
    a call of that kind is left as a goal. *)
Ltac avoid :=
  repeat first
    [ apply avoids_bind; [|intros]
    | apply avoids_mret
    | apply avoids_raise
    | apply avoids_raise_if
    | apply avoids_local
    | apply avoids_reversed
    | apply avoids_call; reflexivity
    | match goal with
      | |- avoids _ (if ?c then _ else _) => destruct c
      | |- avoids _ (match ?x with (_, _) => _ end) => destruct x
      end ].

(** The exception [e], which the module raises in one place only, is not
    raised by a computation built from other steps. *)
Ltac not_raised :=
  repeat first
    [ apply not_raised_bind; [|intros]
    | apply not_raised_raise_if; vm_compute; discriminate
    | apply not_raised_call; intros; discriminate
    | apply not_raised_local; discriminate
    | match goal with
      | |- result (if ?c then _ else _) ≠ _ => destruct c
      | |- result (match ?x with (_, _) => _ end) ≠ _ => destruct x
      | |- result (mret _) ≠ _ => discriminate
      end ].

(** ** The common preconditions *)

Section preconditions.
Context `{!Collaborators}.
Implicit Types (op : operation) (isotherm : Isotherm)
  (psd_model : option string) (pore_geometry : string) (verbose : bool)
  (model_parameters : gmap string (option string)).

Lemma py_in_Some (s : string) (l : list string) :
  py_in (Some s) l = bool_decide (s ∈ l).
Proof. reflexivity. Qed.

(** The entry points step through the checks the way the specification
    orders them: a failed precondition ends the call at once, with no call
    made to any collaborator. *)
Lemma precondition_failure op isotherm psd_model pore_geometry verbose
    model_parameters e :
  first_failed_precondition (registry op) isotherm psd_model pore_geometry
    = Some e →
  classical_psd op isotherm psd_model pore_geometry verbose model_parameters
    = raise e.
Proof.
  unfold first_failed_precondition. intros Hfail.
  destruct op; unfold classical_psd, mesopore_size_distribution,
    micropore_size_distribution, registry in *.
  all: case_bool_decide as Hmass;
    [rewrite (bool_decide_eq_false_2 (_ ≠ "mass")) by tauto;
     rewrite bind_raise_if_false
    |rewrite (bool_decide_eq_true_2 (_ ≠ "mass")) by done;
     rewrite bind_raise_if_true; congruence].
  all: case_bool_decide as Hrel;
    [rewrite (bool_decide_eq_false_2 (_ ≠ "relative")) by tauto;
     rewrite bind_raise_if_false
    |rewrite (bool_decide_eq_true_2 (_ ≠ "relative")) by done;
     rewrite bind_raise_if_true; congruence].
  all: destruct psd_model as [name|];
    [rewrite (bool_decide_eq_false_2 (Some name = None)) by done;
     rewrite bind_raise_if_false, py_in_Some
    |rewrite bind_raise_if_true; congruence].
  all: case_bool_decide as Hmodel; simpl negb;
    [rewrite bind_raise_if_false
    |rewrite bind_raise_if_true; congruence].
  all: case_bool_decide as Hgeom; [done|].
  all: rewrite (bool_decide_eq_true_2 (_ ∉ _)) by done.
  all: rewrite bind_raise_if_true; congruence.
Qed.

(** When the four preconditions hold the checks are passed over. *)
Lemma preconditions_pass {B} models isotherm psd_model pore_geometry
    (k : M B) :
  first_failed_precondition models isotherm psd_model pore_geometry = None →
  (raise_if (bool_decide (isotherm.(mode_adsorbent) ≠ "mass"))
     exn_not_per_mass;;
   raise_if (bool_decide (isotherm.(mode_pressure) ≠ "relative"))
     exn_not_relative;;
   raise_if (bool_decide (psd_model = None)) exn_no_model;;
   raise_if (negb (py_in psd_model models)) (exn_psd_model psd_model models);;
   raise_if (bool_decide (pore_geometry ∉ _PORE_GEOMETRIES))
     (exn_geometry pore_geometry);;
   k) = k.
Proof.
  unfold first_failed_precondition. intros Hnone.
  destruct psd_model as [name|]; rewrite ?py_in_Some;
    repeat case_bool_decide; try done; try tauto.
  simpl negb. by rewrite !bind_raise_if_false.
Qed.

End preconditions.

(** ** Basis checks (C1) and the order of the preconditions (C5) *)

Section basis_and_order.
Context `{!Collaborators}.
Implicit Types (op : operation) (isotherm : Isotherm)
  (psd_model : option string) (pore_geometry : string) (verbose : bool)
  (model_parameters : gmap string (option string)).

Lemma dft_trace_head isotherm kernel_path verbose model_parameters :
  ∃ rest,
    trace (dft_size_distribution isotherm kernel_path verbose
             model_parameters)
    = Call_psd_dft_kernel_fit isotherm.(pressure_ads)
        (isotherm.(loading_ads) "mmol") kernel_path :: rest.
Proof.
  unfold dft_size_distribution.
  destruct (psd_dft_kernel_fit _ _ _) as [s|r].
  - rewrite bind_call_raises. by exists [].
  - rewrite bind_call_returns, trace_after. eauto.
Qed.

(** C1, as amended: with a loading basis other than mass the mesoporous
    and the microporous operation fail with the loading-basis error, and
    with the loading basis mass and a pressure basis other than relative
    they fail with the pressure-basis error; in both cases no collaborator
    is called at all (so no engine).  The DFT operation makes no basis
    check: in any basis its first step is the call of the kernel-fit engine
    on the adsorption arrays. *)
Theorem basis_checked_by_classical_operations op isotherm psd_model
    pore_geometry verbose model_parameters kernel_path :
  (isotherm.(mode_adsorbent) ≠ "mass" →
   trace (classical_psd op isotherm psd_model pore_geometry verbose
            model_parameters) = [] ∧
   result (classical_psd op isotherm psd_model pore_geometry verbose
             model_parameters) = inl exn_not_per_mass) ∧
  (isotherm.(mode_adsorbent) = "mass" →
   isotherm.(mode_pressure) ≠ "relative" →
   trace (classical_psd op isotherm psd_model pore_geometry verbose
            model_parameters) = [] ∧
   result (classical_psd op isotherm psd_model pore_geometry verbose
             model_parameters) = inl exn_not_relative) ∧
  (∃ rest,
     trace (dft_size_distribution isotherm kernel_path verbose
              model_parameters)
     = Call_psd_dft_kernel_fit isotherm.(pressure_ads)
         (isotherm.(loading_ads) "mmol") kernel_path :: rest).
Proof.
  split; [|split; [|apply dft_trace_head]].
  - intros Hmass.
    rewrite (precondition_failure _ _ _ _ _ _ exn_not_per_mass); [done|].
    unfold first_failed_precondition.
    by rewrite bool_decide_eq_false_2 by done.
  - intros Hmass Hrel.
    rewrite (precondition_failure _ _ _ _ _ _ exn_not_relative); [done|].
    unfold first_failed_precondition.
    rewrite bool_decide_eq_true_2 by done.
    by rewrite bool_decide_eq_false_2 by done.
Qed.

(** C5: in both classical operations the preconditions are checked in the
    order loading basis, pressure basis, model name supplied, model name
    registered, geometry registered; the first one that fails decides the
    exception, and that exception is raised before any call to the adsorbate
    property provider (the trace of calls is empty). *)
Theorem preconditions_checked_in_order op isotherm psd_model pore_geometry
    verbose model_parameters e :
  first_failed_precondition (registry op) isotherm psd_model pore_geometry
    = Some e →
  trace (classical_psd op isotherm psd_model pore_geometry verbose
           model_parameters) = [] ∧
  result (classical_psd op isotherm psd_model pore_geometry verbose
            model_parameters) = inl e.
Proof. intros Hfail. by rewrite (precondition_failure _ _ _ _ _ _ e). Qed.

End basis_and_order.

(** C1 as stated fails on the DFT operation: an isotherm in volume basis and
    absolute pressure goes straight to the kernel-fit engine, and a result is
    returned. *)
Lemma dft_reaches_engine_in_any_basis :
  let isotherm := Sample.with_modes Sample.iso "volume" "absolute" in
  isotherm.(mode_adsorbent) ≠ "mass" ∧
  isotherm.(mode_pressure) ≠ "relative" ∧
  @dft_size_distribution Sample.collaborators isotherm "kernel.csv" false ∅
  = ([Call_psd_dft_kernel_fit
        (Some [0.1; 0.3; 0.5; 0.7; 0.9; 0.99]%float)
        (Some [1; 2; 3; 4; 5; 6]%float) "kernel.csv"],
     inr {[ "pore_widths" := [0.1; 0.3; 0.5; 0.7; 0.9; 0.99]%float;
            "pore_distribution" := [1; 2; 3; 4; 5; 6]%float ]}).
Proof. split; [done|split; [done|]]. vm_compute. reflexivity. Qed.

Lemma basis_checked_by_classical_operations_witness :
  (trace (@classical_psd Sample.collaborators Mesoporous
            (Sample.with_modes Sample.iso "volume" "absolute")
            (Some "BJH") "cylinder" true ∅) = [] ∧
   result (@classical_psd Sample.collaborators Mesoporous
             (Sample.with_modes Sample.iso "volume" "absolute")
             (Some "BJH") "cylinder" true ∅) = inl exn_not_per_mass) ∧
  (trace (@classical_psd Sample.collaborators Microporous
            (Sample.with_modes Sample.iso "mass" "absolute")
            (Some "HK") "slit" true ∅) = [] ∧
   result (@classical_psd Sample.collaborators Microporous
             (Sample.with_modes Sample.iso "mass" "absolute")
             (Some "HK") "slit" true ∅) = inl exn_not_relative).
Proof.
  split.
  - by apply (proj1 (@basis_checked_by_classical_operations
                       Sample.collaborators Mesoporous
                       (Sample.with_modes Sample.iso "volume" "absolute")
                       (Some "BJH") "cylinder" true ∅ "kernel.csv")).
  - by apply (proj1 (proj2 (@basis_checked_by_classical_operations
                              Sample.collaborators Microporous
                              (Sample.with_modes Sample.iso "mass"
                                 "absolute")
                              (Some "HK") "slit" true ∅ "kernel.csv"))).
Defined.

Lemma preconditions_checked_in_order_witness :
  trace (@classical_psd Sample.collaborators Mesoporous
           (Sample.with_modes Sample.iso "mass" "absolute")
           (Some "XYZ") "cube" false ∅) = [] ∧
  result (@classical_psd Sample.collaborators Mesoporous
            (Sample.with_modes Sample.iso "mass" "absolute")
            (Some "XYZ") "cube" false ∅) = inl exn_not_relative.
Proof.
  apply (@preconditions_checked_in_order Sample.collaborators).
  vm_compute. reflexivity.
Defined.

(** ** The mesoporous operation past its validation *)

Section mesopore.
Context `{!Collaborators}.
Implicit Types (isotherm : Isotherm)
  (psd_model : option string) (pore_geometry : string) (verbose : bool)
  (model_parameters : gmap string (option string)).

Lemma thickness_resolved model_parameters :
  thickness_usable model_parameters →
  ∃ name,
    (if dict_has model_parameters "thickness_model"
     then dict_get model_parameters "thickness_model"
     else Some "Harkins/Jura") = Some name ∧
    py_in (Some name) _THICKNESS_MODELS = true ∧
    (name = "Halsey" ∨ name = "Harkins/Jura") ∧
    (model_parameters !! "thickness_model" = None → name = "Harkins/Jura").
Proof.
  unfold thickness_usable, dict_has, dict_get.
  destruct (model_parameters !! "thickness_model") as [v|] eqn:Hv.
  - intros (name & -> & Hin & Hname). exists name.
    rewrite bool_decide_eq_true_2 by eauto. simpl.
    rewrite bool_decide_eq_true_2 by done. done.
  - intros Hin. exists "Harkins/Jura".
    rewrite bool_decide_eq_false_2 by (by intros [? ?]). simpl.
    rewrite bool_decide_eq_true_2 by done. auto.
Qed.

(** The validation and the property lookups of a ready call, run up to the
    point where the branch arrays are read. *)
Ltac to_data_read Hready Hth tm Htm Hname :=
  let Hpre := fresh "Hpre" in
  let Hbranch := fresh "Hbranch" in
  let Hads := fresh "Hads" in
  let Hmm := fresh "Hmm" in
  let Hld := fresh "Hld" in
  let Hst := fresh "Hst" in
  let Hmg := fresh "Hmg" in
  let Hreg := fresh "Hreg" in
  destruct Hready
    as [Hpre Hbranch (? & ? & ? & ? & Hads & Hmm & Hld & Hst) [? Hmg]];
  destruct (thickness_resolved _ Hth) as (tm & Htm & Hreg & Hname);
  unfold mesopore_size_distribution;
  rewrite preconditions_pass by done;
  cbv zeta; rewrite Htm, Hreg, Hads;
  destruct Hbranch as [Hbranch|Hbranch]; rewrite Hbranch in *; try done;
  simpl py_in; simpl negb; decide_conditions; run;
  rewrite Hmm; run; rewrite Hld; run; rewrite Hst; run.

(** C4: on a ready call with the BJH or the DH model, the one engine call of
    the run is handed the adsorption arrays both reversed (the first pressure
    it sees is the last, highest one of the isotherm) when the branch is
    'adsorption', and the desorption arrays as the isotherm returns them when
    the branch is 'desorption'. *)
Theorem engine_receives_branch_arrays isotherm psd_model pore_geometry
    verbose model_parameters :
  meso_ready isotherm psd_model pore_geometry model_parameters →
  thickness_usable model_parameters →
  psd_model = Some "BJH" ∨ psd_model = Some "DH" →
  (∀ l p,
     dict_get model_parameters "branch" = Some "adsorption" →
     isotherm.(loading_ads) "mmol" = Some l →
     isotherm.(pressure_ads) = Some p →
     omap engine_arrays
       (trace (mesopore_size_distribution isotherm psd_model pore_geometry
                 verbose model_parameters))
     = [(Some (rev l), Some (rev p))]) ∧
  (∀ l,
     dict_get model_parameters "branch" = Some "desorption" →
     isotherm.(loading_des) "mmol" = Some l →
     omap engine_arrays
       (trace (mesopore_size_distribution isotherm psd_model pore_geometry
                 verbose model_parameters))
     = [(Some l, isotherm.(pressure_des))]).
Proof.
  intros Hready Hth Hengine. split.
  - intros l p Hb Hl Hp.
    to_data_read Hready Hth tm Htm Hname.
    rewrite Hl, Hp, Hmg. unfold reversed. run. decide_conditions. run.
    destruct Hname as ([-> | ->] & _), Hengine as [-> | ->];
      decide_conditions; run.
    all: call_outcome; [done|]; destruct verbose; run; [|done].
    all: by call_outcome.
  - intros l Hb Hl.
    to_data_read Hready Hth tm Htm Hname.
    rewrite Hl, Hmg. run. decide_conditions. run.
    destruct Hname as ([-> | ->] & _), Hengine as [-> | ->];
      decide_conditions; run.
    all: call_outcome; [done|]; destruct verbose; run; [|done].
    all: by call_outcome.
Qed.

(** C3, at the failing inputs: when the adsorption branch is requested and
    the isotherm has none, the reversal of the missing array raises a
    TypeError before the check for missing data is reached; the
    data-availability error is raised only for a missing desorption branch.
    In both cases the run ends after the property lookups, with no engine
    call. *)
Theorem missing_branch_data isotherm psd_model pore_geometry verbose
    model_parameters :
  meso_ready isotherm psd_model pore_geometry model_parameters →
  thickness_usable model_parameters →
  (dict_get model_parameters "branch" = Some "adsorption" →
   isotherm.(loading_ads) "mmol" = None →
   mesopore_size_distribution isotherm psd_model pore_geometry verbose
     model_parameters
   = (property_lookups isotherm,
      inl (TypeError "'NoneType' object is not subscriptable"))) ∧
  (dict_get model_parameters "branch" = Some "desorption" →
   isotherm.(loading_des) "mmol" = None →
   mesopore_size_distribution isotherm psd_model pore_geometry verbose
     model_parameters
   = (property_lookups isotherm, inl exn_no_branch_data)).
Proof.
  intros Hready Hth. split; intros Hb Hl.
  - to_data_read Hready Hth tm Htm Hname. rewrite Hl. by run.
  - to_data_read Hready Hth tm Htm Hname. rewrite Hl.
    decide_conditions. by run.
Qed.

(** C2, at the failing input: 'HK' is in the mesoporous registry, yet with
    that model name no run of the mesoporous operation calls an engine and
    none returns a result. *)
Theorem mesopore_HK_never_returns isotherm pore_geometry verbose
    model_parameters :
  "HK" ∈ _MESO_PSD_MODELS ∧
  never_returns (mesopore_size_distribution isotherm (Some "HK")
                   pore_geometry verbose model_parameters) ∧
  avoids is_engine_call
    (mesopore_size_distribution isotherm (Some "HK") pore_geometry verbose
       model_parameters).
Proof.
  split; [unfold _MESO_PSD_MODELS; rewrite !elem_of_cons; auto|].
  unfold mesopore_size_distribution. cbv zeta.
  rewrite (bool_decide_eq_false_2 (Some "HK" = Some "BJH")) by done.
  rewrite (bool_decide_eq_false_2 (Some "HK" = Some "DH")) by done.
  split.
  - repeat first
      [ progress run
      | apply never_returns_bind; intros
      | match goal with
        | |- never_returns (match ?x with (_, _) => _ end) => destruct x
        end ].
    apply never_returns_raise.
  - avoid.
Qed.

Lemma mesopore_branch_missing isotherm psd_model pore_geometry verbose
    model_parameters :
  first_failed_precondition _MESO_PSD_MODELS isotherm psd_model
    pore_geometry = None →
  dict_get model_parameters "branch" = None →
  mesopore_size_distribution isotherm psd_model pore_geometry verbose
    model_parameters = raise exn_no_branch.
Proof.
  intros Hpre Hb. unfold mesopore_size_distribution.
  rewrite preconditions_pass by done. cbv zeta. rewrite Hb.
  rewrite (bool_decide_eq_true_2 (None = None)) by done. by run.
Qed.

Lemma mesopore_branch_invalid isotherm psd_model pore_geometry verbose
    model_parameters b :
  first_failed_precondition _MESO_PSD_MODELS isotherm psd_model
    pore_geometry = None →
  dict_get model_parameters "branch" = Some b →
  b ∉ ["adsorption"; "desorption"] →
  mesopore_size_distribution isotherm psd_model pore_geometry verbose
    model_parameters = raise (exn_branch (Some b)).
Proof.
  intros Hpre Hb Hnot. unfold mesopore_size_distribution.
  rewrite preconditions_pass by done. cbv zeta. rewrite Hb, py_in_Some.
  rewrite (bool_decide_eq_false_2 (Some b = None)) by done.
  rewrite (bool_decide_eq_false_2 (b ∈ _)) by done. by run.
Qed.

Lemma mesopore_thickness_unregistered isotherm psd_model pore_geometry
    verbose model_parameters v :
  first_failed_precondition _MESO_PSD_MODELS isotherm psd_model
    pore_geometry = None →
  dict_get model_parameters "branch" = Some "adsorption" ∨
  dict_get model_parameters "branch" = Some "desorption" →
  model_parameters !! "thickness_model" = Some v →
  py_in v _THICKNESS_MODELS = false →
  mesopore_size_distribution isotherm psd_model pore_geometry verbose
    model_parameters = raise (exn_sub_model v _THICKNESS_MODELS).
Proof.
  intros Hpre Hb Hv Hnot. unfold mesopore_size_distribution.
  rewrite preconditions_pass by done. cbv zeta.
  assert (dict_has model_parameters "thickness_model" = true) as ->.
  { unfold dict_has. rewrite Hv. by apply bool_decide_eq_true_2. }
  assert (dict_get model_parameters "thickness_model" = v) as ->.
  { unfold dict_get. by rewrite Hv. }
  rewrite Hnot.
  destruct Hb as [-> | ->]; simpl py_in; simpl negb; decide_conditions;
    by run.
Qed.

Lemma mesopore_thickness_default isotherm psd_model pore_geometry verbose
    model_parameters :
  model_parameters !! "thickness_model" = None →
  mesopore_size_distribution isotherm psd_model pore_geometry verbose
    model_parameters
  = mesopore_size_distribution isotherm psd_model pore_geometry verbose
      (<["thickness_model" := Some "Harkins/Jura"]> model_parameters).
Proof.
  intros Hnone. unfold mesopore_size_distribution, dict_has, dict_get.
  rewrite lookup_insert_eq, lookup_insert_ne, Hnone by done.
  rewrite (bool_decide_eq_false_2 (is_Some None)) by (by intros [? ?]).
  rewrite (bool_decide_eq_true_2 (is_Some (Some _))) by eauto.
  reflexivity.
Qed.

Lemma mesopore_default_thickness_function isotherm psd_model pore_geometry
    verbose model_parameters :
  model_parameters !! "thickness_model" = None →
  "Harkins/Jura" ∈ _THICKNESS_MODELS →
  meso_ready isotherm psd_model pore_geometry model_parameters →
  psd_model = Some "BJH" ∨ psd_model = Some "DH" →
  branch_has_data isotherm model_parameters →
  omap engine_thickness
    (trace (mesopore_size_distribution isotherm psd_model pore_geometry
              verbose model_parameters))
  = [thickness_harkins_jura].
Proof.
  intros Hnone Hin Hready Hengine Hdata.
  assert (thickness_usable model_parameters) as Hth.
  { unfold thickness_usable. by rewrite Hnone. }
  to_data_read Hready Hth tm Htm Hname.
  all: destruct Hname as [_ Hname]; specialize (Hname Hnone) as ->.
  all: destruct Hdata as [(Hb & [l Hl] & [p Hp]) | (Hb & [l Hl])];
    try congruence.
  all: rewrite ?Hl, ?Hp, Hmg; unfold reversed; run; decide_conditions; run.
  all: destruct Hengine as [-> | ->]; decide_conditions; run.
  all: call_outcome; [done|]; destruct verbose; run; [|done].
  all: by call_outcome.
Qed.

(** With 'BJH' or 'DH' a ready call on a branch that has data returns the
    dict of the two arrays, unless a collaborator raises. *)
Lemma mesopore_BJH_DH_outcome isotherm psd_model pore_geometry verbose
    model_parameters :
  meso_ready isotherm psd_model pore_geometry model_parameters →
  thickness_usable model_parameters →
  psd_model = Some "BJH" ∨ psd_model = Some "DH" →
  branch_has_data isotherm model_parameters →
  (∃ pore_widths pore_dist,
     result (mesopore_size_distribution isotherm psd_model pore_geometry
               verbose model_parameters)
     = inr {[ "pore_widths" := pore_widths;
              "pore_distribution" := pore_dist ]}) ∨
  (∃ s,
     result (mesopore_size_distribution isotherm psd_model pore_geometry
               verbose model_parameters) = inl (Propagated s)).
Proof.
  intros Hready Hth Hengine Hdata.
  to_data_read Hready Hth tm Htm Hname.
  all: destruct Hdata as [(Hb & [l Hl] & [p Hp]) | (Hb & [l Hl])];
    try congruence.
  all: rewrite ?Hl, ?Hp, Hmg; unfold reversed; run; decide_conditions; run.
  all: destruct Hname as ([-> | ->] & _), Hengine as [-> | ->];
    decide_conditions; run.
  all: call_outcome; [by eauto|]; destruct verbose; run; [|by eauto].
  all: call_outcome; by eauto.
Qed.

(** C6: once the four common preconditions hold, a configuration without a
    'branch' entry ([dict_get] is [None] when the key is absent, and when it
    is bound to None) and one whose entry is neither 'adsorption' nor
    'desorption' are rejected; a thickness model supplied under the key
    'thickness_model' and not in the registry is rejected; and when the key
    is not supplied, the engine of a ready call is handed the Harkins/Jura
    thickness function. *)
Theorem branch_and_thickness_configuration isotherm psd_model pore_geometry
    verbose model_parameters :
  first_failed_precondition _MESO_PSD_MODELS isotherm psd_model
    pore_geometry = None →
  (dict_get model_parameters "branch" = None →
   mesopore_size_distribution isotherm psd_model pore_geometry verbose
     model_parameters = raise exn_no_branch) ∧
  (∀ b,
     dict_get model_parameters "branch" = Some b →
     b ∉ ["adsorption"; "desorption"] →
     mesopore_size_distribution isotherm psd_model pore_geometry verbose
       model_parameters = raise (exn_branch (Some b))) ∧
  (∀ v,
     dict_get model_parameters "branch" = Some "adsorption" ∨
     dict_get model_parameters "branch" = Some "desorption" →
     model_parameters !! "thickness_model" = Some v →
     py_in v _THICKNESS_MODELS = false →
     mesopore_size_distribution isotherm psd_model pore_geometry verbose
       model_parameters = raise (exn_sub_model v _THICKNESS_MODELS)) ∧
  (model_parameters !! "thickness_model" = None →
   "Harkins/Jura" ∈ _THICKNESS_MODELS →
   meso_ready isotherm psd_model pore_geometry model_parameters →
   psd_model = Some "BJH" ∨ psd_model = Some "DH" →
   branch_has_data isotherm model_parameters →
   omap engine_thickness
     (trace (mesopore_size_distribution isotherm psd_model pore_geometry
               verbose model_parameters))
   = [thickness_harkins_jura]).
Proof.
  intros Hpre. repeat split.
  - by apply mesopore_branch_missing.
  - intros b. by apply mesopore_branch_invalid.
  - intros v. by apply mesopore_thickness_unregistered.
  - apply mesopore_default_thickness_function.
Qed.

(** C10: past the common preconditions and the branch check, the key
    'thickness_model' bound to None, or to a name that is not registered,
    raises the unregistered-model exception; only when the key is absent
    does the call run as it does with 'Harkins/Jura' supplied. *)
Theorem thickness_default_only_when_absent isotherm psd_model pore_geometry
    verbose model_parameters :
  first_failed_precondition _MESO_PSD_MODELS isotherm psd_model
    pore_geometry = None →
  dict_get model_parameters "branch" = Some "adsorption" ∨
  dict_get model_parameters "branch" = Some "desorption" →
  (model_parameters !! "thickness_model" = Some None →
   mesopore_size_distribution isotherm psd_model pore_geometry verbose
     model_parameters = raise (exn_sub_model None _THICKNESS_MODELS)) ∧
  (∀ name,
     model_parameters !! "thickness_model" = Some (Some name) →
     name ∉ _THICKNESS_MODELS →
     mesopore_size_distribution isotherm psd_model pore_geometry verbose
       model_parameters
     = raise (exn_sub_model (Some name) _THICKNESS_MODELS)) ∧
  (model_parameters !! "thickness_model" = None →
   mesopore_size_distribution isotherm psd_model pore_geometry verbose
     model_parameters
   = mesopore_size_distribution isotherm psd_model pore_geometry verbose
       (<["thickness_model" := Some "Harkins/Jura"]> model_parameters)).
Proof.
  intros Hpre Hb. repeat split.
  - intros Hv. by apply mesopore_thickness_unregistered.
  - intros name Hv Hnot. apply mesopore_thickness_unregistered; [done..|].
    rewrite py_in_Some. by apply bool_decide_eq_false_2.
  - apply mesopore_thickness_default.
Qed.

End mesopore.

(** ** The test double is ready *)

Lemma sample_meso_ready isotherm psd_model pore_geometry model_parameters :
  first_failed_precondition _MESO_PSD_MODELS isotherm psd_model
    pore_geometry = None →
  dict_get model_parameters "branch" = Some "adsorption" ∨
  dict_get model_parameters "branch" = Some "desorption" →
  isotherm.(gas) = "N2" →
  @meso_ready Sample.collaborators isotherm psd_model pore_geometry
    model_parameters.
Proof.
  intros Hpre Hb Hgas. split; [done..| |by eexists].
  exists Sample.nitrogen. rewrite Hgas. by repeat eexists.
Qed.

Ltac sample_ready :=
  apply sample_meso_ready;
  [vm_compute; reflexivity | (by left) || (by right) | reflexivity].

Lemma sample_thickness_default model_parameters :
  model_parameters !! "thickness_model" = None →
  @thickness_usable Sample.collaborators model_parameters.
Proof.
  intros Hnone. unfold thickness_usable. rewrite Hnone. simpl.
  rewrite !elem_of_cons; auto.
Qed.

Lemma engine_receives_branch_arrays_witness :
  omap engine_arrays
    (trace (@mesopore_size_distribution Sample.collaborators Sample.iso
              (Some "BJH") "cylinder" false
              {[ "branch" := Some "adsorption" ]}))
  = [(Some [6; 5; 4; 3; 2; 1]%float,
      Some [0.99; 0.9; 0.7; 0.5; 0.3; 0.1]%float)] ∧
  omap engine_arrays
    (trace (@mesopore_size_distribution Sample.collaborators Sample.iso
              (Some "DH") "slit" true
              {[ "branch" := Some "desorption" ]}))
  = [(Some [6; 5.5; 4.5; 2.5]%float,
      Some [0.99; 0.8; 0.6; 0.2]%float)].
Proof.
  split.
  - edestruct (@engine_receives_branch_arrays Sample.collaborators
                 Sample.iso (Some "BJH") "cylinder" false
                 {[ "branch" := Some "adsorption" ]}) as [Hads _];
      [sample_ready | by apply sample_thickness_default | by left |].
    by apply (Hads [1; 2; 3; 4; 5; 6]%float
                   [0.1; 0.3; 0.5; 0.7; 0.9; 0.99]%float).
  - edestruct (@engine_receives_branch_arrays Sample.collaborators
                 Sample.iso (Some "DH") "slit" true
                 {[ "branch" := Some "desorption" ]}) as [_ Hdes];
      [sample_ready | by apply sample_thickness_default | by right |].
    by apply (Hdes [6; 5.5; 4.5; 2.5]%float).
Defined.

(** The registered model 'HK' on the scenario isotherm: validation passes,
    the properties are looked up, no engine runs, and the construction of
    the result reads a variable no branch has assigned. *)
Example mesopore_HK_on_sample :
  @mesopore_size_distribution Sample.collaborators Sample.iso (Some "HK")
    "cylinder" false {[ "branch" := Some "adsorption" ]}
  = (property_lookups Sample.iso
       ++ [Call_meniscus_geometry (Some "adsorption") "cylinder"],
     inl (UnboundLocalError "pore_widths")).
Proof. vm_compute. reflexivity. Qed.

(** With 'BJH' the same call returns the dict (the test engine echoes the
    arrays it is handed). *)
Example mesopore_BJH_on_sample :
  result (@mesopore_size_distribution Sample.collaborators Sample.iso
            (Some "BJH") "cylinder" false
            {[ "branch" := Some "adsorption" ]})
  = inr {[ "pore_widths" := [0.99; 0.9; 0.7; 0.5; 0.3; 0.1]%float;
           "pore_distribution" := [6; 5; 4; 3; 2; 1]%float ]}.
Proof. reflexivity. Qed.

(** The error for an unregistered name lists the registry. *)
Example mesopore_unregistered_model_message :
  @mesopore_size_distribution Sample.collaborators Sample.iso (Some "XYZ")
    "cylinder" false {[ "branch" := Some "adsorption" ]}
  = raise (Exception ["Model XYZ not an option for psd.";
                      "Available models are ['BJH', 'DH', 'HK']"]).
Proof. vm_compute. reflexivity. Qed.

Lemma missing_branch_data_witness :
  @mesopore_size_distribution Sample.collaborators
    (Sample.without_ads Sample.iso) (Some "BJH") "cylinder" false
    {[ "branch" := Some "adsorption" ]}
  = (property_lookups (Sample.without_ads Sample.iso),
     inl (TypeError "'NoneType' object is not subscriptable")) ∧
  @mesopore_size_distribution Sample.collaborators
    (Sample.without_des Sample.iso) (Some "BJH") "cylinder" false
    {[ "branch" := Some "desorption" ]}
  = (property_lookups (Sample.without_des Sample.iso),
     inl exn_no_branch_data).
Proof.
  split.
  - edestruct (@missing_branch_data Sample.collaborators
                 (Sample.without_ads Sample.iso) (Some "BJH") "cylinder"
                 false {[ "branch" := Some "adsorption" ]}) as [Hads _];
      [sample_ready | by apply sample_thickness_default |].
    by apply Hads.
  - edestruct (@missing_branch_data Sample.collaborators
                 (Sample.without_des Sample.iso) (Some "BJH") "cylinder"
                 false {[ "branch" := Some "desorption" ]}) as [_ Hdes];
      [sample_ready | by apply sample_thickness_default |].
    by apply Hdes.
Defined.

Lemma branch_and_thickness_configuration_witness :
  @mesopore_size_distribution Sample.collaborators Sample.iso (Some "BJH")
    "cylinder" false ∅ = raise exn_no_branch ∧
  @mesopore_size_distribution Sample.collaborators Sample.iso (Some "BJH")
    "cylinder" false {[ "branch" := Some "both" ]}
  = raise (exn_branch (Some "both")) ∧
  @mesopore_size_distribution Sample.collaborators Sample.iso (Some "BJH")
    "cylinder" false
    {[ "branch" := Some "adsorption"; "thickness_model" := Some "BET" ]}
  = raise (exn_sub_model (Some "BET") ["Halsey"; "Harkins/Jura"]) ∧
  omap engine_thickness
    (trace (@mesopore_size_distribution Sample.collaborators Sample.iso
              (Some "BJH") "cylinder" false
              {[ "branch" := Some "adsorption" ]}))
  = [@thickness_harkins_jura Sample.collaborators].
Proof.
  repeat apply conj.
  - edestruct (@branch_and_thickness_configuration Sample.collaborators
                 Sample.iso (Some "BJH") "cylinder" false ∅)
      as (Hmissing & _); [vm_compute; reflexivity|].
    by apply Hmissing.
  - edestruct (@branch_and_thickness_configuration Sample.collaborators
                 Sample.iso (Some "BJH") "cylinder" false
                 {[ "branch" := Some "both" ]})
      as (_ & Hinvalid & _); [vm_compute; reflexivity|].
    apply Hinvalid; [reflexivity|].
    by apply (bool_decide_eq_false_1 (_ ∈ _)).
  - edestruct (@branch_and_thickness_configuration Sample.collaborators
                 Sample.iso (Some "BJH") "cylinder" false
                 {[ "branch" := Some "adsorption";
                    "thickness_model" := Some "BET" ]})
      as (_ & _ & Hthickness & _); [vm_compute; reflexivity|].
    apply (Hthickness (Some "BET")); [by left|reflexivity|reflexivity].
  - edestruct (@branch_and_thickness_configuration Sample.collaborators
                 Sample.iso (Some "BJH") "cylinder" false
                 {[ "branch" := Some "adsorption" ]})
      as (_ & _ & _ & Hdefault); [vm_compute; reflexivity|].
    apply Hdefault;
      [reflexivity|by apply (bool_decide_eq_true_1 (_ ∈ _))
      |sample_ready|by left|].
    left. by repeat split.
Defined.

Lemma thickness_default_only_when_absent_witness :
  @mesopore_size_distribution Sample.collaborators Sample.iso (Some "DH")
    "slit" false
    {[ "branch" := Some "desorption"; "thickness_model" := None ]}
  = raise (exn_sub_model None ["Halsey"; "Harkins/Jura"]) ∧
  @mesopore_size_distribution Sample.collaborators Sample.iso (Some "DH")
    "slit" false
    {[ "branch" := Some "desorption"; "thickness_model" := Some "BET" ]}
  = raise (exn_sub_model (Some "BET") ["Halsey"; "Harkins/Jura"]) ∧
  @mesopore_size_distribution Sample.collaborators Sample.iso (Some "DH")
    "slit" false {[ "branch" := Some "desorption" ]}
  = @mesopore_size_distribution Sample.collaborators Sample.iso (Some "DH")
      "slit" false
      (<["thickness_model" := Some "Harkins/Jura"]>
         {[ "branch" := Some "desorption" ]}).
Proof.
  repeat apply conj.
  - edestruct (@thickness_default_only_when_absent Sample.collaborators
                 Sample.iso (Some "DH") "slit" false
                 {[ "branch" := Some "desorption";
                    "thickness_model" := None ]})
      as (Hnone & _); [vm_compute; reflexivity|by right|].
    by apply Hnone.
  - edestruct (@thickness_default_only_when_absent Sample.collaborators
                 Sample.iso (Some "DH") "slit" false
                 {[ "branch" := Some "desorption";
                    "thickness_model" := Some "BET" ]})
      as (_ & Hname & _); [vm_compute; reflexivity|by right|].
    apply Hname; [reflexivity|].
    by apply (bool_decide_eq_false_1 (_ ∈ _)).
  - edestruct (@thickness_default_only_when_absent Sample.collaborators
                 Sample.iso (Some "DH") "slit" false
                 {[ "branch" := Some "desorption" ]})
      as (_ & _ & Habsent); [vm_compute; reflexivity|by right|].
    by apply Habsent.
Defined.

(** ** The microporous operation *)

Section micropore.
Context `{!Collaborators}.
Implicit Types (isotherm : Isotherm)
  (psd_model : option string) (pore_geometry : string) (verbose : bool)
  (model_parameters : gmap string (option string)).

Lemma adsorbent_resolved model_parameters :
  adsorbent_usable model_parameters →
  ∃ name,
    (if dict_has model_parameters "adsorbent_model"
     then dict_get model_parameters "adsorbent_model"
     else Some "Carbon(HK)") = Some name ∧
    py_in (Some name) _ADSORBENT_MODELS = true ∧
    (name = "Carbon(HK)" ∨ name = "OxideIon(SF)") ∧
    (model_parameters !! "adsorbent_model" = None → name = "Carbon(HK)") ∧
    (∀ supplied,
       model_parameters !! "adsorbent_model" = Some (Some supplied) →
       name = supplied).
Proof.
  unfold adsorbent_usable, dict_has, dict_get.
  destruct (model_parameters !! "adsorbent_model") as [v|] eqn:Hv.
  - intros (name & -> & Hin & Hname). exists name.
    rewrite bool_decide_eq_true_2 by eauto. simpl.
    rewrite bool_decide_eq_true_2 by done.
    repeat split; [done..|]. by intros supplied [= ->].
  - intros Hin. exists "Carbon(HK)".
    rewrite bool_decide_eq_false_2 by (by intros [? ?]). simpl.
    rewrite bool_decide_eq_true_2 by done. repeat split; auto; done.
Qed.

(** A ready call makes one engine call, on what the adsorption accessors
    and the loading query at 0.9 return. *)
Lemma micropore_engine_call isotherm psd_model pore_geometry verbose
    model_parameters :
  micro_ready isotherm psd_model pore_geometry →
  adsorbent_usable model_parameters →
  ∃ adsorbent,
    omap hk_inputs
      (trace (micropore_size_distribution isotherm psd_model pore_geometry
                verbose model_parameters))
    = [(isotherm.(loading_ads) "mmol", isotherm.(pressure_ads),
        isotherm.(loading_at) 0.9%float, adsorbent)] ∧
    (model_parameters !! "adsorbent_model" = None →
     adsorbent = PROPERTIES_CARBON) ∧
    (model_parameters !! "adsorbent_model" = Some (Some "Carbon(HK)") →
     adsorbent = PROPERTIES_CARBON) ∧
    (model_parameters !! "adsorbent_model" = Some (Some "OxideIon(SF)") →
     adsorbent = PROPERTIES_OXIDE_ION).
Proof.
  intros [Hpre (adsorbate & Hads & Hprop)] Hth.
  destruct (adsorbent_resolved _ Hth)
    as (am & Ham & Hreg & Hname & Hdef & Hsup).
  assert (psd_model = Some "HK") as ->.
  { revert Hpre. unfold first_failed_precondition, _MICRO_PSD_MODELS.
    destruct psd_model as [name|]; repeat case_bool_decide; try done.
    intros _. f_equal. by apply list_elem_of_singleton. }
  destruct (Hprop "molecular_diameter") as [md Hmd]; [rewrite !elem_of_cons; auto|].
  destruct (Hprop "polarizability") as [po Hpo]; [rewrite !elem_of_cons; auto|].
  destruct (Hprop "magnetic_susceptibility") as [ms Hms]; [rewrite !elem_of_cons; auto|].
  destruct (Hprop "surface_density") as [sd Hsd]; [rewrite !elem_of_cons; auto|].
  unfold micropore_size_distribution.
  rewrite preconditions_pass by done. cbv zeta.
  rewrite Ham, Hreg, Hads. simpl negb. run.
  rewrite Hmd. run. rewrite Hpo. run. rewrite Hms. run. rewrite Hsd. run.
  decide_conditions. run.
  destruct Hname as [-> | ->]; decide_conditions; run;
    [exists PROPERTIES_CARBON|exists PROPERTIES_OXIDE_ION].
  all: split;
    [|repeat split; intros Hv;
      try done; try (by specialize (Hdef Hv)); by specialize (Hsup _ Hv)].
  all: call_outcome; [done|]; destruct verbose; run; [|done].
  all: by call_outcome.
Qed.

Lemma micropore_adsorbent_unregistered isotherm psd_model pore_geometry
    verbose model_parameters v :
  first_failed_precondition _MICRO_PSD_MODELS isotherm psd_model
    pore_geometry = None →
  model_parameters !! "adsorbent_model" = Some v →
  py_in v _ADSORBENT_MODELS = false →
  micropore_size_distribution isotherm psd_model pore_geometry verbose
    model_parameters = raise (exn_sub_model v _ADSORBENT_MODELS).
Proof.
  intros Hpre Hv Hnot. unfold micropore_size_distribution.
  rewrite preconditions_pass by done. cbv zeta.
  assert (dict_has model_parameters "adsorbent_model" = true) as ->.
  { unfold dict_has. rewrite Hv. by apply bool_decide_eq_true_2. }
  assert (dict_get model_parameters "adsorbent_model" = v) as ->.
  { unfold dict_get. by rewrite Hv. }
  rewrite Hnot. simpl negb. by run.
Qed.

(** The only entry of the configuration that is read is 'adsorbent_model'. *)
Lemma micropore_reads_adsorbent_model_only isotherm psd_model pore_geometry
    verbose model_parameters model_parameters' :
  model_parameters' !! "adsorbent_model"
    = model_parameters !! "adsorbent_model" →
  micropore_size_distribution isotherm psd_model pore_geometry verbose
    model_parameters'
  = micropore_size_distribution isotherm psd_model pore_geometry verbose
      model_parameters.
Proof.
  intros Hsame. unfold micropore_size_distribution, dict_has, dict_get.
  by rewrite Hsame.
Qed.

Lemma micropore_never_data_error isotherm psd_model pore_geometry verbose
    model_parameters :
  result (micropore_size_distribution isotherm psd_model pore_geometry
            verbose model_parameters) ≠ inl exn_no_branch_data.
Proof. unfold micropore_size_distribution. cbv zeta. not_raised. Qed.

(** C7: the microporous operation reads no 'branch' entry (setting or
    removing it changes nothing); a ready call hands the engine the
    adsorption-branch loading and pressure and, as the limit, the loading
    queried at relative pressure 0.9, with the carbon properties when no
    adsorbent model is supplied and the properties of the model named
    otherwise; an adsorbent model that is supplied and not registered is
    rejected. *)
Theorem micropore_reads_adsorption_branch isotherm psd_model pore_geometry
    verbose model_parameters :
  micro_ready isotherm psd_model pore_geometry →
  (∀ b,
     micropore_size_distribution isotherm psd_model pore_geometry verbose
       (<["branch" := b]> model_parameters)
     = micropore_size_distribution isotherm psd_model pore_geometry verbose
         model_parameters) ∧
  micropore_size_distribution isotherm psd_model pore_geometry verbose
    (delete "branch" model_parameters)
  = micropore_size_distribution isotherm psd_model pore_geometry verbose
      model_parameters ∧
  (adsorbent_usable model_parameters →
   ∃ adsorbent,
     omap hk_inputs
       (trace (micropore_size_distribution isotherm psd_model pore_geometry
                 verbose model_parameters))
     = [(isotherm.(loading_ads) "mmol", isotherm.(pressure_ads),
         isotherm.(loading_at) 0.9%float, adsorbent)] ∧
     (model_parameters !! "adsorbent_model" = None →
      adsorbent = PROPERTIES_CARBON) ∧
     (model_parameters !! "adsorbent_model" = Some (Some "Carbon(HK)") →
      adsorbent = PROPERTIES_CARBON) ∧
     (model_parameters !! "adsorbent_model" = Some (Some "OxideIon(SF)") →
      adsorbent = PROPERTIES_OXIDE_ION)) ∧
  (∀ v,
     model_parameters !! "adsorbent_model" = Some v →
     py_in v _ADSORBENT_MODELS = false →
     micropore_size_distribution isotherm psd_model pore_geometry verbose
       model_parameters = raise (exn_sub_model v _ADSORBENT_MODELS)).
Proof.
  intros Hready. repeat split.
  - intros b. apply micropore_reads_adsorbent_model_only.
    by rewrite lookup_insert_ne.
  - apply micropore_reads_adsorbent_model_only.
    by rewrite lookup_delete_ne.
  - by apply micropore_engine_call.
  - intros v. apply micropore_adsorbent_unregistered.
    by destruct Hready.
Qed.

(** C9: no run of the microporous operation ends in the data-availability
    error of the mesoporous path; on a ready call for an isotherm whose
    adsorption accessors return nothing, the engine is called with those
    missing arrays and with whatever the loading query at 0.9 returns. *)
Theorem micropore_has_no_data_check isotherm psd_model pore_geometry verbose
    model_parameters :
  isotherm.(loading_ads) "mmol" = None →
  isotherm.(pressure_ads) = None →
  result (micropore_size_distribution isotherm psd_model pore_geometry
            verbose model_parameters) ≠ inl exn_no_branch_data ∧
  (micro_ready isotherm psd_model pore_geometry →
   adsorbent_usable model_parameters →
   ∃ adsorbent,
     omap hk_inputs
       (trace (micropore_size_distribution isotherm psd_model pore_geometry
                 verbose model_parameters))
     = [(None, None, isotherm.(loading_at) 0.9%float, adsorbent)]).
Proof.
  intros Hl Hp. split; [apply micropore_never_data_error|].
  intros Hready Hth.
  destruct (micropore_engine_call isotherm psd_model pore_geometry verbose
              model_parameters Hready Hth) as (adsorbent & Hcall & _).
  exists adsorbent. by rewrite Hcall, Hl, Hp.
Qed.

End micropore.

Lemma sample_micro_ready isotherm psd_model pore_geometry :
  first_failed_precondition _MICRO_PSD_MODELS isotherm psd_model
    pore_geometry = None →
  isotherm.(gas) = "N2" →
  @micro_ready Sample.collaborators isotherm psd_model pore_geometry.
Proof.
  intros Hpre Hgas. split; [done|].
  exists Sample.nitrogen. rewrite Hgas. split; [done|]. by eexists.
Qed.

Lemma sample_adsorbent_default model_parameters :
  model_parameters !! "adsorbent_model" = None →
  @adsorbent_usable Sample.collaborators model_parameters.
Proof.
  intros Hnone. unfold adsorbent_usable. rewrite Hnone. simpl.
  rewrite !elem_of_cons; auto.
Qed.

Lemma micropore_reads_adsorption_branch_witness :
  @micropore_size_distribution Sample.collaborators Sample.iso (Some "HK")
    "slit" false {[ "branch" := Some "desorption" ]}
  = @micropore_size_distribution Sample.collaborators Sample.iso (Some "HK")
      "slit" false ∅ ∧
  omap hk_inputs
    (trace (@micropore_size_distribution Sample.collaborators Sample.iso
              (Some "HK") "slit" false ∅))
  = [(Some [1; 2; 3; 4; 5; 6]%float,
      Some [0.1; 0.3; 0.5; 0.7; 0.9; 0.99]%float,
      Some 5%float, @PROPERTIES_CARBON Sample.collaborators)] ∧
  @micropore_size_distribution Sample.collaborators Sample.iso (Some "HK")
    "slit" false {[ "adsorbent_model" := Some "Zeolite" ]}
  = raise (exn_sub_model (Some "Zeolite") ["Carbon(HK)"; "OxideIon(SF)"]).
Proof.
  repeat apply conj.
  - edestruct (@micropore_reads_adsorption_branch Sample.collaborators
                 Sample.iso (Some "HK") "slit" false ∅) as (Hbranch & _);
      [apply sample_micro_ready; [vm_compute|]; reflexivity|].
    apply (Hbranch (Some "desorption")).
  - edestruct (@micropore_reads_adsorption_branch Sample.collaborators
                 Sample.iso (Some "HK") "slit" false ∅)
      as (_ & _ & Hcall & _);
      [apply sample_micro_ready; [vm_compute|]; reflexivity|].
    destruct Hcall as (adsorbent & Htrace & Hdefault & _);
      [by apply sample_adsorbent_default|].
    rewrite Htrace, Hdefault by reflexivity. reflexivity.
  - edestruct (@micropore_reads_adsorption_branch Sample.collaborators
                 Sample.iso (Some "HK") "slit" false
                 {[ "adsorbent_model" := Some "Zeolite" ]})
      as (_ & _ & _ & Hunregistered);
      [apply sample_micro_ready; [vm_compute|]; reflexivity|].
    by apply (Hunregistered (Some "Zeolite")).
Defined.

Lemma micropore_has_no_data_check_witness :
  result (@micropore_size_distribution Sample.collaborators
            (Sample.without_ads Sample.iso) (Some "HK") "slit" false ∅)
    ≠ inl exn_no_branch_data ∧
  ∃ adsorbent,
    omap hk_inputs
      (trace (@micropore_size_distribution Sample.collaborators
                (Sample.without_ads Sample.iso) (Some "HK") "slit" false ∅))
    = [(None, None, None, adsorbent)].
Proof.
  edestruct (@micropore_has_no_data_check Sample.collaborators
               (Sample.without_ads Sample.iso) (Some "HK") "slit" false ∅)
    as [Hnever Hcall]; [reflexivity..|].
  split; [exact Hnever|].
  apply Hcall; [|by apply sample_adsorbent_default].
  apply sample_micro_ready; [vm_compute|]; reflexivity.
Defined.

(** ** The verbose flag *)

Section verbose.
Context `{!Collaborators}.
Implicit Types (isotherm : Isotherm)
  (psd_model : option string) (pore_geometry : string)
  (model_parameters : gmap string (option string)).

Lemma differs_by_plot_bind {A} log xmax (m : M A)
    (quiet loud : A → M (gmap string ndarray)) :
  avoids is_plot_call m →
  (∀ a, differs_by_plot log xmax (quiet a) (loud a)) →
  differs_by_plot log xmax (m ≫= quiet) (m ≫= loud).
Proof.
  intros Hm Hk. destruct m as [t [e|a]]; [by repeat split|].
  destruct (Hk a) as (Hquiet & Hfail & Hsame & Hplot).
  unfold differs_by_plot, avoids, mbind, M_bind, trace, result in *.
  simpl in *. repeat split.
  - apply Forall_app. by split.
  - intros e He. by rewrite (Hfail e He).
  - done.
  - intros d Hd. destruct (Hplot d Hd) as (w & dist & -> & Htrace & Hres).
    exists w, dist. rewrite Htrace, Hres, app_assoc. done.
Qed.

Lemma differs_by_plot_end log xmax (pore_widths pore_dist : ndarray) :
  differs_by_plot log xmax
    (mret ();;
     mret {[ "pore_widths" := pore_widths;
             "pore_distribution" := pore_dist ]})
    (call (Call_psd_plot pore_widths pore_dist log xmax)
          (psd_plot pore_widths pore_dist log xmax);;
     mret {[ "pore_widths" := pore_widths;
             "pore_distribution" := pore_dist ]}).
Proof.
  unfold differs_by_plot, avoids, mbind, M_bind, trace, result. simpl.
  destruct (psd_plot pore_widths pore_dist log xmax) as [s|[]] eqn:Hplot;
    simpl.
  all: repeat split; try done.
  all: intros d [= <-]; exists pore_widths, pore_dist; by rewrite Hplot.
Qed.

(** Both runs make the same steps up to the plot. *)
Ltac same_steps :=
  repeat first
    [ apply differs_by_plot_end
    | apply differs_by_plot_bind; [solve [avoid]|intros]
    | match goal with
      | |- differs_by_plot _ _ (match ?x with (_, _) => _ end) _ =>
          destruct x
      end ].

(** C8: for each of the three operations and every input, the run with
    [verbose] and the run without it are related by [differs_by_plot]: no
    plot call without [verbose]; the same exception after the same calls
    when the run fails; and when a result is returned, with [verbose] one
    plot call on the arrays of that result comes after all other calls and
    the result returned is the same dict. *)
Theorem verbose_only_adds_plot isotherm psd_model pore_geometry kernel_path
    model_parameters :
  differs_by_plot None None
    (mesopore_size_distribution isotherm psd_model pore_geometry false
       model_parameters)
    (mesopore_size_distribution isotherm psd_model pore_geometry true
       model_parameters) ∧
  differs_by_plot (Some false) (Some 2%Z)
    (micropore_size_distribution isotherm psd_model pore_geometry false
       model_parameters)
    (micropore_size_distribution isotherm psd_model pore_geometry true
       model_parameters) ∧
  differs_by_plot None None
    (dft_size_distribution isotherm kernel_path false model_parameters)
    (dft_size_distribution isotherm kernel_path true model_parameters).
Proof.
  split; [|split].
  - unfold mesopore_size_distribution. cbv zeta. same_steps.
  - unfold micropore_size_distribution. cbv zeta. same_steps.
  - unfold dft_size_distribution. cbv zeta. same_steps.
Qed.

End verbose.

(** ** A calculus for statements about every run *)

Section post_rules.
Context {A B : Type}.
Implicit Types (Φ : list event → exn + B → Prop) (k : A → M B).

Lemma post_raise Φ e : Φ [] (inl e) → post Φ (raise e).
Proof. done. Qed.

Lemma post_mret Φ (b : B) : Φ [] (inr b) → post Φ (mret b).
Proof. done. Qed.

Lemma post_bind_call Φ ev (o : outcome A) k :
  (∀ s, o = inl s → Φ [ev] (inl (Propagated s))) →
  (∀ a, o = inr a → post (λ t r, Φ (ev :: t) r) (k a)) →
  post Φ (call ev o ≫= k).
Proof.
  intros Hraise Hret. destruct o as [s|a].
  - rewrite bind_call_raises. by apply Hraise.
  - rewrite bind_call_returns. by apply Hret.
Qed.

End post_rules.

Lemma post_bind_raise_if {B} (Φ : list event → exn + B → Prop) c e
    (k : unit → M B) :
  (c = true → Φ [] (inl e)) →
  (c = false → post Φ (k ())) →
  post Φ (raise_if c e ≫= k).
Proof.
  intros Htrue Hfalse. destruct c.
  - rewrite bind_raise_if_true. by apply Htrue.
  - rewrite bind_raise_if_false. by apply Hfalse.
Qed.

Lemma bind_reversed_array {B} (a : ndarray) (k : option ndarray → M B) :
  reversed (Some a) ≫= k = k (Some (rev a)).
Proof. apply bind_mret. Qed.

Lemma bind_reversed_None {B} (k : option ndarray → M B) :
  reversed None ≫= k
  = raise (TypeError "'NoneType' object is not subscriptable").
Proof. reflexivity. Qed.

(** One step of a run, with a case for each way the step can go. *)
Ltac wp_step :=
  lazymatch goal with
  | |- post _ (raise_if _ _ ≫= _) => apply post_bind_raise_if; intros ?
  | |- post _ (call _ _ ≫= _) => apply post_bind_call; intros ? ?
  | |- post _ (local _ (Some _) ≫= _) => rewrite bind_local_bound
  | |- post _ (local _ None ≫= _) => rewrite bind_local_unbound
  | |- post _ (local _ (if ?c then _ else _) ≫= _) => destruct c eqn:?
  | |- post _ (local _ ?x ≫= _) => destruct x eqn:?
  | |- post _ (reversed (Some _) ≫= _) => rewrite bind_reversed_array
  | |- post _ (reversed None ≫= _) => rewrite bind_reversed_None
  | |- post _ (reversed ?x ≫= _) => destruct x eqn:?
  | |- post _ ((if ?c then _ else _) ≫= _) => destruct c eqn:?
  | |- post _ ((_ ≫= _) ≫= _) => rewrite bind_assoc
  | |- post _ (mret _ ≫= _) => rewrite bind_mret; cbv beta iota
  | |- post _ (raise _ ≫= _) => rewrite bind_raise
  | |- post _ (raise _) => apply post_raise
  | |- post _ (mret _) => apply post_mret
  end.

Ltac wp := repeat wp_step.

(** What the conditions passed on the way say. *)
Ltac conditions :=
  repeat match goal with
  | H : negb _ = true |- _ => apply negb_true_iff in H
  | H : negb _ = false |- _ => apply negb_false_iff in H
  | H : bool_decide _ = true |- _ => apply bool_decide_eq_true_1 in H
  | H : bool_decide _ = false |- _ => apply bool_decide_eq_false_1 in H
  end.

(** ** What a returned result says about the input *)

Section returned.
Context `{!Collaborators}.
Implicit Types (isotherm : Isotherm)
  (psd_model : option string) (pore_geometry : string) (verbose : bool)
  (model_parameters : gmap string (option string)).

Lemma preconditions_from_checks models isotherm psd_model pore_geometry :
  ¬ (isotherm.(mode_adsorbent) ≠ "mass") →
  ¬ (isotherm.(mode_pressure) ≠ "relative") →
  py_in psd_model models = true →
  ¬ (pore_geometry ∉ _PORE_GEOMETRIES) →
  first_failed_precondition models isotherm psd_model pore_geometry = None.
Proof.
  intros Hmass Hrel Hmodel Hgeom. unfold first_failed_precondition.
  destruct psd_model as [name|]; [|done]. rewrite py_in_Some in Hmodel.
  rewrite Hmodel. repeat case_bool_decide; tauto.
Qed.

Lemma thickness_usable_from_checks model_parameters :
  py_in (if dict_has model_parameters "thickness_model"
         then dict_get model_parameters "thickness_model"
         else Some "Harkins/Jura") _THICKNESS_MODELS = true →
  (if dict_has model_parameters "thickness_model"
   then dict_get model_parameters "thickness_model"
   else Some "Harkins/Jura") = Some "Halsey" ∨
  (if dict_has model_parameters "thickness_model"
   then dict_get model_parameters "thickness_model"
   else Some "Harkins/Jura") = Some "Harkins/Jura" →
  thickness_usable model_parameters.
Proof.
  unfold thickness_usable, dict_has, dict_get.
  destruct (model_parameters !! "thickness_model") as [v|].
  - rewrite bool_decide_eq_true_2 by eauto.
    change (Some v ≫= id) with v. intros Hin Hname.
    destruct v as [name|]; [|by destruct Hname]. exists name.
    rewrite py_in_Some in Hin. apply bool_decide_eq_true_1 in Hin.
    repeat split; [done|]. destruct Hname as [[= ->]|[= ->]]; auto.
  - rewrite bool_decide_eq_false_2 by (by intros [? ?]).
    rewrite py_in_Some. intros Hin _. by apply bool_decide_eq_true_1 in Hin.
Qed.

(** X1: the mesoporous operation returns a result only on a ready call
    on which every collaborator returned: the common preconditions hold,
    the model is 'BJH' or 'DH', the branch is one of the two and the
    isotherm has data on it, the thickness model is registered and defined,
    the four lookups and the meniscus selection returned, the engine call
    that the run made ([psd_bjh] for 'BJH', [psd_dollimore_heal] for 'DH')
    returned a pair of arrays and, under [verbose], the plot of that pair
    returned; the result is the dict of exactly these two arrays. *)
Theorem mesopore_returns_only_when_ready isotherm psd_model pore_geometry
    verbose model_parameters d :
  result (mesopore_size_distribution isotherm psd_model pore_geometry
            verbose model_parameters) = inr d →
  meso_ready isotherm psd_model pore_geometry model_parameters ∧
  thickness_usable model_parameters ∧
  branch_has_data isotherm model_parameters ∧
  ∃ loading pressure t_model k_model liquid_density molar_mass
      pore_widths pore_dist,
    (psd_model = Some "BJH" ∧
     Call_psd_bjh loading pressure pore_geometry t_model k_model
       liquid_density molar_mass
     ∈ trace (mesopore_size_distribution isotherm psd_model pore_geometry
                verbose model_parameters) ∧
     psd_bjh loading pressure pore_geometry t_model k_model
       liquid_density molar_mass = inr (pore_widths, pore_dist) ∨
     psd_model = Some "DH" ∧
     Call_psd_dollimore_heal loading pressure pore_geometry t_model k_model
       liquid_density molar_mass
     ∈ trace (mesopore_size_distribution isotherm psd_model pore_geometry
                verbose model_parameters) ∧
     psd_dollimore_heal loading pressure pore_geometry t_model k_model
       liquid_density molar_mass = inr (pore_widths, pore_dist)) ∧
    (verbose = true →
     psd_plot pore_widths pore_dist None None = inr ()) ∧
    d = {[ "pore_widths" := pore_widths;
           "pore_distribution" := pore_dist ]}.
Proof.
  set (run := mesopore_size_distribution isotherm psd_model pore_geometry
                verbose model_parameters).
  change (post (λ calls r, r = inr d →
    meso_ready isotherm psd_model pore_geometry model_parameters ∧
    thickness_usable model_parameters ∧
    branch_has_data isotherm model_parameters ∧
    ∃ loading pressure t_model k_model liquid_density molar_mass
        pore_widths pore_dist,
      (psd_model = Some "BJH" ∧
       Call_psd_bjh loading pressure pore_geometry t_model k_model
         liquid_density molar_mass ∈ calls ∧
       psd_bjh loading pressure pore_geometry t_model k_model
         liquid_density molar_mass = inr (pore_widths, pore_dist) ∨
       psd_model = Some "DH" ∧
       Call_psd_dollimore_heal loading pressure pore_geometry t_model
         k_model liquid_density molar_mass ∈ calls ∧
       psd_dollimore_heal loading pressure pore_geometry t_model k_model
         liquid_density molar_mass = inr (pore_widths, pore_dist)) ∧
      (verbose = true →
       psd_plot pore_widths pore_dist None None = inr ()) ∧
      d = {[ "pore_widths" := pore_widths;
             "pore_distribution" := pore_dist ]}) run).
  unfold run, mesopore_size_distribution. cbv zeta. wp.
  all: try (intros [=]; fail).
  all: intros [= <-]; conditions.
  all: split; [split; [by apply preconditions_from_checks|by auto
                      |repeat esplit; eassumption|by eauto]|].
  all: split; [apply thickness_usable_from_checks; by auto|].
  all: split;
    [first [ left; repeat split; [done|by eexists|by eexists]
           | right; split; [done|by apply not_eq_None_Some] ]|].
  all: match goal with
       | Hengine : _ = inr ?r |- context [?r.1] => destruct r as [w dist]
       end.
  all: repeat match goal with u : () |- _ => destruct u end.
  all: do 8 eexists; split; [|split; [|reflexivity]].
  all: try (left; split; [done|]; split; [|eassumption];
            rewrite !elem_of_cons; by auto 10).
  all: try (right; split; [done|]; split; [|eassumption];
            rewrite !elem_of_cons; by auto 10).
  all: first [done | by intros _].
Qed.

Lemma adsorbent_usable_from_checks model_parameters :
  py_in (if dict_has model_parameters "adsorbent_model"
         then dict_get model_parameters "adsorbent_model"
         else Some "Carbon(HK)") _ADSORBENT_MODELS = true →
  (if dict_has model_parameters "adsorbent_model"
   then dict_get model_parameters "adsorbent_model"
   else Some "Carbon(HK)") = Some "Carbon(HK)" ∨
  (if dict_has model_parameters "adsorbent_model"
   then dict_get model_parameters "adsorbent_model"
   else Some "Carbon(HK)") = Some "OxideIon(SF)" →
  adsorbent_usable model_parameters.
Proof.
  unfold adsorbent_usable, dict_has, dict_get.
  destruct (model_parameters !! "adsorbent_model") as [v|].
  - rewrite bool_decide_eq_true_2 by eauto.
    change (Some v ≫= id) with v. intros Hin Hname.
    destruct v as [name|]; [|by destruct Hname]. exists name.
    rewrite py_in_Some in Hin. apply bool_decide_eq_true_1 in Hin.
    repeat split; [done|]. destruct Hname as [[= ->]|[= ->]]; auto.
  - rewrite bool_decide_eq_false_2 by (by intros [? ?]).
    rewrite py_in_Some. intros Hin _. by apply bool_decide_eq_true_1 in Hin.
Qed.

(** X2: the microporous operation returns a result only on a ready call:
    the common preconditions hold (so the model is 'HK'), the adsorbent
    model is registered and defined, and the four property lookups
    returned; the result is then a dict of exactly the two arrays. *)
Theorem micropore_returns_only_when_ready isotherm psd_model pore_geometry
    verbose model_parameters d :
  result (micropore_size_distribution isotherm psd_model pore_geometry
            verbose model_parameters) = inr d →
  micro_ready isotherm psd_model pore_geometry ∧
  adsorbent_usable model_parameters ∧
  psd_model = Some "HK" ∧
  ∃ pore_widths pore_dist,
    d = {[ "pore_widths" := pore_widths;
           "pore_distribution" := pore_dist ]}.
Proof.
  match goal with
  | |- result ?m = inr ?d → ?G => change (post (λ _ r, r = inr d → G) m)
  end.
  unfold micropore_size_distribution. cbv zeta. wp.
  all: try (intros [=]; fail).
  all: intros [= <-]; conditions.
  all: split; [split; [by apply preconditions_from_checks|]|].
  all: try (split; [apply adsorbent_usable_from_checks; by auto|];
            split; [done|by eauto]).
  all: eexists; split; [eassumption|]; intros name Hname.
  all: repeat (apply elem_of_cons in Hname as [->|Hname]; [by eauto|]).
  all: by apply elem_of_nil in Hname.
Qed.

End returned.

Lemma mesopore_returns_only_when_ready_witness :
  @meso_ready Sample.collaborators Sample.iso (Some "BJH") "cylinder"
    {[ "branch" := Some "adsorption" ]} ∧
  @thickness_usable Sample.collaborators
    {[ "branch" := Some "adsorption" ]} ∧
  branch_has_data Sample.iso {[ "branch" := Some "adsorption" ]} ∧
  ∃ loading pressure t_model k_model liquid_density molar_mass
      pore_widths pore_dist,
    (Some "BJH" = Some "BJH" ∧
     Call_psd_bjh loading pressure "cylinder" t_model k_model
       liquid_density molar_mass
     ∈ trace (@mesopore_size_distribution Sample.collaborators Sample.iso
                (Some "BJH") "cylinder" true
                {[ "branch" := Some "adsorption" ]}) ∧
     @psd_bjh Sample.collaborators loading pressure "cylinder" t_model
       k_model liquid_density molar_mass = inr (pore_widths, pore_dist) ∨
     Some "BJH" = Some "DH" ∧
     Call_psd_dollimore_heal loading pressure "cylinder" t_model k_model
       liquid_density molar_mass
     ∈ trace (@mesopore_size_distribution Sample.collaborators Sample.iso
                (Some "BJH") "cylinder" true
                {[ "branch" := Some "adsorption" ]}) ∧
     @psd_dollimore_heal Sample.collaborators loading pressure "cylinder"
       t_model k_model liquid_density molar_mass
     = inr (pore_widths, pore_dist)) ∧
    (true = true →
     @psd_plot Sample.collaborators pore_widths pore_dist None None
     = inr ()) ∧
    ({[ "pore_widths" := [0.99; 0.9; 0.7; 0.5; 0.3; 0.1]%float;
        "pore_distribution" := [6; 5; 4; 3; 2; 1]%float ]}
       : gmap string ndarray)
    = {[ "pore_widths" := pore_widths; "pore_distribution" := pore_dist ]}.
Proof.
  apply (@mesopore_returns_only_when_ready Sample.collaborators Sample.iso
           (Some "BJH") "cylinder" true).
  reflexivity.
Defined.

Lemma micropore_returns_only_when_ready_witness :
  @micro_ready Sample.collaborators Sample.iso (Some "HK") "slit" ∧
  @adsorbent_usable Sample.collaborators ∅ ∧
  Some "HK" = Some "HK" ∧
  ∃ pore_widths pore_dist,
    ({[ "pore_widths" := [0.1; 0.3; 0.5; 0.7; 0.9; 0.99]%float;
        "pore_distribution" := [1; 2; 3; 4; 5; 6]%float ]}
       : gmap string ndarray)
    = {[ "pore_widths" := pore_widths; "pore_distribution" := pore_dist ]}.
Proof.
  apply (@micropore_returns_only_when_ready Sample.collaborators Sample.iso
           (Some "HK") "slit" false ∅).
  reflexivity.
Defined.

(** ** Where the exceptions come from *)

Section exceptions.
Context `{!Collaborators}.
Implicit Types (isotherm : Isotherm)
  (psd_model : option string) (pore_geometry : string) (verbose : bool)
  (model_parameters : gmap string (option string)).

Lemma py_in_true (x : option string) (l : list string) :
  py_in x l = true → ∃ name, x = Some name ∧ name ∈ l.
Proof.
  destruct x as [name|]; [|done]. rewrite py_in_Some.
  intros Hin. apply bool_decide_eq_true_1 in Hin. eauto.
Qed.

(** X3: in the mesoporous operation the data-availability exception is
    raised only for the desorption branch with a missing loading array, and
    a TypeError only for the adsorption branch with a missing loading or
    pressure array; both end the run right after the four property
    lookups. *)
Theorem mesopore_data_errors isotherm psd_model pore_geometry verbose
    model_parameters :
  (result (mesopore_size_distribution isotherm psd_model pore_geometry
             verbose model_parameters) = inl exn_no_branch_data →
   dict_get model_parameters "branch" = Some "desorption" ∧
   isotherm.(loading_des) "mmol" = None ∧
   trace (mesopore_size_distribution isotherm psd_model pore_geometry
            verbose model_parameters) = property_lookups isotherm) ∧
  (∀ msg,
     result (mesopore_size_distribution isotherm psd_model pore_geometry
               verbose model_parameters) = inl (TypeError msg) →
     dict_get model_parameters "branch" = Some "adsorption" ∧
     (isotherm.(loading_ads) "mmol" = None ∨
      isotherm.(pressure_ads) = None) ∧
     trace (mesopore_size_distribution isotherm psd_model pore_geometry
              verbose model_parameters) = property_lookups isotherm).
Proof.
  set (run := mesopore_size_distribution isotherm psd_model pore_geometry
                verbose model_parameters).
  change (post (λ t r,
    (r = inl exn_no_branch_data →
     dict_get model_parameters "branch" = Some "desorption" ∧
     isotherm.(loading_des) "mmol" = None ∧
     t = property_lookups isotherm) ∧
    (∀ msg, r = inl (TypeError msg) →
     dict_get model_parameters "branch" = Some "adsorption" ∧
     (isotherm.(loading_ads) "mmol" = None ∨
      isotherm.(pressure_ads) = None) ∧
     t = property_lookups isotherm)) run).
  unfold run, mesopore_size_distribution. cbv zeta. wp.
  all: split; [intros Heq|intros msg Heq].
  all: try discriminate Heq.
  all: try (vm_compute in Heq; discriminate Heq).
  all: conditions; try done; auto.
Qed.

(** X4: provided the two imported registries list no other names than the
    ones the module has definitions for, the only unassigned variable the
    mesoporous operation can run into is [pore_widths], with the model 'HK';
    the microporous operation fails only with an exception of the module's
    own validation or with one raised by a collaborator. *)
Theorem failures_by_kind isotherm psd_model pore_geometry verbose
    model_parameters :
  (∀ name, name ∈ _THICKNESS_MODELS →
           name = "Halsey" ∨ name = "Harkins/Jura") →
  (∀ name, name ∈ _ADSORBENT_MODELS →
           name = "Carbon(HK)" ∨ name = "OxideIon(SF)") →
  (∀ variable,
     result (mesopore_size_distribution isotherm psd_model pore_geometry
               verbose model_parameters)
     = inl (UnboundLocalError variable) →
     psd_model = Some "HK" ∧ variable = "pore_widths") ∧
  (∀ e,
     result (micropore_size_distribution isotherm psd_model pore_geometry
               verbose model_parameters) = inl e →
     (∃ args, e = Exception args) ∨ (∃ s, e = Propagated s)).
Proof.
  intros Hthickness Hadsorbent. split.
  - set (run := mesopore_size_distribution isotherm psd_model pore_geometry
                  verbose model_parameters).
    change (post (λ _ r, ∀ variable, r = inl (UnboundLocalError variable) →
                         psd_model = Some "HK" ∧ variable = "pore_widths")
              run).
    unfold run, mesopore_size_distribution. cbv zeta. wp.
    all: intros variable Heq; try discriminate Heq.
    all: injection Heq as <-; conditions.
    all: repeat match goal with
         | Hin : py_in _ _ = true |- _ =>
             apply py_in_true in Hin as (? & ? & ?)
         end.
    all: unfold _MESO_PSD_MODELS in *.
    all: repeat match goal with
         | Hin : _ ∈ _ :: _ |- _ => apply elem_of_cons in Hin as [?|Hin]
         | Hin : _ ∈ [] |- _ => by apply elem_of_nil in Hin
         end.
    all: try (split; congruence).
    all: match goal with
         | Hin : _ ∈ _THICKNESS_MODELS |- _ =>
             destruct (Hthickness _ Hin); congruence
         end.
  - set (run := micropore_size_distribution isotherm psd_model pore_geometry
                  verbose model_parameters).
    change (post (λ _ r, ∀ e, r = inl e →
                         (∃ args, e = Exception args) ∨
                         (∃ s, e = Propagated s))
              run).
    unfold run, micropore_size_distribution. cbv zeta. wp.
    all: intros e Heq; try discriminate Heq.
    all: injection Heq as <-; try (by eauto).
    all: conditions.
    all: repeat match goal with
         | Hin : py_in _ _ = true |- _ =>
             apply py_in_true in Hin as (? & ? & ?)
         end.
    all: unfold _MICRO_PSD_MODELS in *.
    all: repeat match goal with
         | Hin : _ ∈ _ :: _ |- _ => apply elem_of_cons in Hin as [?|Hin]
         | Hin : _ ∈ [] |- _ => by apply elem_of_nil in Hin
         end.
    all: try congruence.
    all: match goal with
         | Hin : _ ∈ _ADSORBENT_MODELS |- _ =>
             destruct (Hadsorbent _ Hin); congruence
         end.
Qed.

End exceptions.

Lemma mesopore_data_errors_witness :
  (dict_get ({[ "branch" := Some "desorption" ]}
               : gmap string (option string)) "branch"
   = Some "desorption" ∧
   (Sample.without_des Sample.iso).(loading_des) "mmol" = None ∧
   trace (@mesopore_size_distribution Sample.collaborators
            (Sample.without_des Sample.iso) (Some "DH") "slit" true
            {[ "branch" := Some "desorption" ]})
   = property_lookups (Sample.without_des Sample.iso)) ∧
  (dict_get ({[ "branch" := Some "adsorption" ]}
               : gmap string (option string)) "branch"
   = Some "adsorption" ∧
   ((Sample.without_ads Sample.iso).(loading_ads) "mmol" = None ∨
    (Sample.without_ads Sample.iso).(pressure_ads) = None) ∧
   trace (@mesopore_size_distribution Sample.collaborators
            (Sample.without_ads Sample.iso) (Some "DH") "slit" true
            {[ "branch" := Some "adsorption" ]})
   = property_lookups (Sample.without_ads Sample.iso)).
Proof.
  split.
  - by apply (@mesopore_data_errors Sample.collaborators
                (Sample.without_des Sample.iso) (Some "DH") "slit" true
                {[ "branch" := Some "desorption" ]}).
  - by apply (@mesopore_data_errors Sample.collaborators
                (Sample.without_ads Sample.iso) (Some "DH") "slit" true
                {[ "branch" := Some "adsorption" ]})
         with "'NoneType' object is not subscriptable".
Defined.

Lemma sample_registries_defined :
  (∀ name, name ∈ @_THICKNESS_MODELS Sample.collaborators →
           name = "Halsey" ∨ name = "Harkins/Jura") ∧
  (∀ name, name ∈ @_ADSORBENT_MODELS Sample.collaborators →
           name = "Carbon(HK)" ∨ name = "OxideIon(SF)").
Proof.
  split; intros name Hin; simpl in Hin.
  all: repeat (apply elem_of_cons in Hin as [->|Hin]; [by auto|]).
  all: by apply elem_of_nil in Hin.
Qed.

Lemma failures_by_kind_witness :
  (Some "HK" = Some "HK" ∧ "pore_widths" = "pore_widths") ∧
  ((∃ args, exn_no_model = Exception args) ∨
   (∃ s, exn_no_model = Propagated s)).
Proof.
  split.
  - by apply (@failures_by_kind Sample.collaborators Sample.iso (Some "HK")
                "cylinder" false {[ "branch" := Some "adsorption" ]}
                (proj1 sample_registries_defined)
                (proj2 sample_registries_defined)).
  - by apply (@failures_by_kind Sample.collaborators Sample.iso None
                "cylinder" false ∅
                (proj1 sample_registries_defined)
                (proj2 sample_registries_defined)).
Defined.

(** ** The order of the calls and what is read *)

Section order_and_reads.
Context `{!Collaborators}.
Implicit Types (isotherm : Isotherm)
  (psd_model : option string) (pore_geometry : string) (verbose : bool)
  (model_parameters : gmap string (option string)).

Ltac in_order :=
  match goal with
  | |- engine_before_plot ?v ?m =>
      change (post (λ t r,
                calls_in_order v t = true ∧
                (∀ a, r = inr a →
                      milestones t
                      = EngineCalled :: (if v then [Plotted] else [])))
              m)
  end.

Ltac in_order_leaf :=
  split;
  [ reflexivity
  | intros ? Heq; first [discriminate Heq | subst; reflexivity] ].

(** X5: in every run of each of the three operations no engine call and
    no plot call comes before the engine call, and the engine call is
    either the last call of the run or is followed by exactly one call, a
    plot call made under [verbose]; a result is returned only after the
    engine call, under [verbose] only after the plot call as well. *)
Theorem engine_then_plot_then_result isotherm psd_model pore_geometry
    kernel_path verbose model_parameters :
  engine_before_plot verbose
    (mesopore_size_distribution isotherm psd_model pore_geometry verbose
       model_parameters) ∧
  engine_before_plot verbose
    (micropore_size_distribution isotherm psd_model pore_geometry verbose
       model_parameters) ∧
  engine_before_plot verbose
    (dft_size_distribution isotherm kernel_path verbose model_parameters).
Proof.
  split; [|split]; in_order.
  - unfold mesopore_size_distribution. cbv zeta. wp. all: in_order_leaf.
  - unfold micropore_size_distribution. cbv zeta. wp. all: in_order_leaf.
  - unfold dft_size_distribution. cbv zeta. wp. all: in_order_leaf.
Qed.

(** X6: entries of the configuration that an operation does not read are
    ignored without any error: the mesoporous operation depends on the
    entries 'branch' and 'thickness_model' only, the microporous operation
    on 'adsorbent_model' only, the DFT operation on none (so a misspelled
    key silently leaves the default in place). *)
Theorem unread_configuration_ignored isotherm psd_model pore_geometry
    kernel_path verbose model_parameters model_parameters' :
  (model_parameters' !! "branch" = model_parameters !! "branch" →
   model_parameters' !! "thickness_model"
     = model_parameters !! "thickness_model" →
   mesopore_size_distribution isotherm psd_model pore_geometry verbose
     model_parameters'
   = mesopore_size_distribution isotherm psd_model pore_geometry verbose
       model_parameters) ∧
  (model_parameters' !! "adsorbent_model"
     = model_parameters !! "adsorbent_model" →
   micropore_size_distribution isotherm psd_model pore_geometry verbose
     model_parameters'
   = micropore_size_distribution isotherm psd_model pore_geometry verbose
       model_parameters) ∧
  dft_size_distribution isotherm kernel_path verbose model_parameters'
  = dft_size_distribution isotherm kernel_path verbose model_parameters.
Proof.
  split; [|split; [apply micropore_reads_adsorbent_model_only|done]].
  intros Hbranch Hthickness.
  unfold mesopore_size_distribution, dict_has, dict_get.
  by rewrite Hbranch, Hthickness.
Qed.

(** X10: only the arrays of the requested branch are read.  With
    branch='adsorption' the mesoporous run is the same on two isotherms
    that differ in their desorption arrays only, with branch='desorption'
    on two that differ in their adsorption arrays only; the microporous
    run never depends on the desorption arrays. *)
Theorem only_requested_branch_read isotherm isotherm' psd_model
    pore_geometry verbose model_parameters :
  (dict_get model_parameters "branch" = Some "adsorption" →
   same_but_desorption isotherm isotherm' →
   mesopore_size_distribution isotherm psd_model pore_geometry verbose
     model_parameters
   = mesopore_size_distribution isotherm' psd_model pore_geometry verbose
       model_parameters) ∧
  (dict_get model_parameters "branch" = Some "desorption" →
   same_but_adsorption isotherm isotherm' →
   mesopore_size_distribution isotherm psd_model pore_geometry verbose
     model_parameters
   = mesopore_size_distribution isotherm' psd_model pore_geometry verbose
       model_parameters) ∧
  (same_but_desorption isotherm isotherm' →
   isotherm.(loading_at) 0.9%float = isotherm'.(loading_at) 0.9%float →
   micropore_size_distribution isotherm psd_model pore_geometry verbose
     model_parameters
   = micropore_size_distribution isotherm' psd_model pore_geometry verbose
       model_parameters).
Proof.
  split; [|split].
  - intros Hb (Hmass & Hrel & Hgas & Ht & Hl & Hp).
    unfold mesopore_size_distribution.
    rewrite Hb, Hmass, Hrel, Hgas, Ht, Hl, Hp.
    rewrite (bool_decide_eq_true_2 (Some "adsorption" = Some "adsorption"))
      by done.
    reflexivity.
  - intros Hb (Hmass & Hrel & Hgas & Ht & Hl & Hp).
    unfold mesopore_size_distribution.
    rewrite Hb, Hmass, Hrel, Hgas, Ht, Hl, Hp.
    rewrite (bool_decide_eq_false_2 (Some "desorption" = Some "adsorption"))
      by done.
    reflexivity.
  - intros (Hmass & Hrel & Hgas & Ht & Hl & Hp) Hat.
    unfold micropore_size_distribution.
    by rewrite Hmass, Hrel, Hgas, Ht, Hl, Hp, Hat.
Qed.

(** X11: the DFT operation makes no check of its own (the accessors of
    the isotherm being taken to return, None for a missing branch): a run
    fails only when the kernel-fit engine raises, with that exception and
    the engine call as the only call, or when the engine returned and the
    plot made under [verbose] raises, with that exception; and a result it
    returns is the pair the kernel-fit engine returned for the adsorption
    pressure, the adsorption loading in mmol and the kernel path, in this
    order. *)
Theorem dft_outcomes isotherm kernel_path verbose model_parameters :
  (∀ e,
     result (dft_size_distribution isotherm kernel_path verbose
               model_parameters) = inl e →
     (∃ s,
        psd_dft_kernel_fit isotherm.(pressure_ads)
          (isotherm.(loading_ads) "mmol") kernel_path = inl s ∧
        e = Propagated s ∧
        trace (dft_size_distribution isotherm kernel_path verbose
                 model_parameters)
        = [Call_psd_dft_kernel_fit isotherm.(pressure_ads)
             (isotherm.(loading_ads) "mmol") kernel_path]) ∨
     (∃ pore_widths pore_dist s,
        psd_dft_kernel_fit isotherm.(pressure_ads)
          (isotherm.(loading_ads) "mmol") kernel_path
        = inr (pore_widths, pore_dist) ∧
        verbose = true ∧
        psd_plot pore_widths pore_dist None None = inl s ∧
        e = Propagated s)) ∧
  (∀ d,
     result (dft_size_distribution isotherm kernel_path verbose
               model_parameters) = inr d →
     ∃ pore_widths pore_dist,
       psd_dft_kernel_fit isotherm.(pressure_ads)
         (isotherm.(loading_ads) "mmol") kernel_path
       = inr (pore_widths, pore_dist) ∧
       (verbose = true →
        psd_plot pore_widths pore_dist None None = inr ()) ∧
       d = {[ "pore_widths" := pore_widths;
              "pore_distribution" := pore_dist ]}).
Proof.
  set (fit := psd_dft_kernel_fit isotherm.(pressure_ads)
                (isotherm.(loading_ads) "mmol") kernel_path).
  set (ev := Call_psd_dft_kernel_fit isotherm.(pressure_ads)
               (isotherm.(loading_ads) "mmol") kernel_path).
  set (run := dft_size_distribution isotherm kernel_path verbose
                model_parameters).
  change (post (λ t r,
    (∀ e, r = inl e →
       (∃ s, fit = inl s ∧ e = Propagated s ∧ t = [ev]) ∨
       (∃ pore_widths pore_dist s,
          fit = inr (pore_widths, pore_dist) ∧ verbose = true ∧
          psd_plot pore_widths pore_dist None None = inl s ∧
          e = Propagated s)) ∧
    (∀ d, r = inr d →
       ∃ pore_widths pore_dist,
         fit = inr (pore_widths, pore_dist) ∧
         (verbose = true →
          psd_plot pore_widths pore_dist None None = inr ()) ∧
         d = {[ "pore_widths" := pore_widths;
                "pore_distribution" := pore_dist ]})) run).
  unfold run, dft_size_distribution. cbv zeta. fold fit ev. wp.
  all: split; [intros e Heq|intros d Heq]; try discriminate Heq.
  all: injection Heq as <-; try (left; by eauto).
  all: match goal with
       | Hfit : _ = inr ?r |- context [?r.1] => destruct r as [w dist]
       end.
  all: repeat match goal with u : () |- _ => destruct u end.
  all: try (right; by eauto 10).
  all: exists w, dist; repeat split; first [done | by intros _ | by intros [=]].
Qed.

End order_and_reads.

(** ** What the engines are handed *)

Section wiring.
Context `{!Collaborators}.
Implicit Types (isotherm : Isotherm)
  (psd_model : option string) (pore_geometry : string) (verbose : bool)
  (model_parameters : gmap string (option string)).

(** X7: an adsorbate that the property provider does not know ends both
    classical operations with the provider's exception, after the
    validation has passed and before any other property is looked up, any
    array is checked or any engine is called. *)
Theorem unknown_adsorbate_propagates isotherm psd_model pore_geometry
    verbose model_parameters s :
  Adsorbate_from_list isotherm.(gas) = inl s →
  (meso_ready_but_lookups isotherm psd_model pore_geometry
     model_parameters →
   mesopore_size_distribution isotherm psd_model pore_geometry verbose
     model_parameters
   = ([Call_Adsorbate_from_list isotherm.(gas)], inl (Propagated s))) ∧
  (first_failed_precondition _MICRO_PSD_MODELS isotherm psd_model
     pore_geometry = None →
   adsorbent_usable model_parameters →
   micropore_size_distribution isotherm psd_model pore_geometry verbose
     model_parameters
   = ([Call_Adsorbate_from_list isotherm.(gas)], inl (Propagated s))).
Proof.
  intros Hunknown. split.
  - intros (Hpre & Hbranch & Hth).
    destruct (thickness_resolved _ Hth) as (tm & Htm & Hreg & _).
    unfold mesopore_size_distribution.
    rewrite preconditions_pass by done. cbv zeta.
    rewrite Htm, Hreg, Hunknown.
    destruct Hbranch as [-> | ->]; simpl py_in; simpl negb;
      decide_conditions; by run.
  - intros Hpre Had.
    destruct (adsorbent_resolved _ Had) as (am & Ham & Hreg & _).
    unfold micropore_size_distribution.
    rewrite preconditions_pass by done. cbv zeta.
    rewrite Ham, Hreg, Hunknown. simpl negb. by run.
Qed.

(** X8: on a call that passes validation, with the lookups returning [mm],
    [ld] and [st] and the meniscus selection returning [mg], the run makes
    the four lookups, selects the meniscus for the branch and the geometry,
    and then calls [psd_bjh] for 'BJH' and [psd_dollimore_heal] for 'DH'
    with the geometry, the thickness function of the model name in force
    ([thickness_halsey] for 'Halsey', [thickness_harkins_jura] for
    'Harkins/Jura'), the Kelvin function [kelvin_radius_std] fixed at [mg],
    the temperature and the three properties, and the liquid density and
    molar mass. *)
Theorem mesopore_engine_arguments isotherm psd_model pore_geometry verbose
    model_parameters adsorbate mm ld st mg engine name t :
  first_failed_precondition _MESO_PSD_MODELS isotherm psd_model
    pore_geometry = None →
  branch_has_data isotherm model_parameters →
  (model_parameters !! "thickness_model" = None ∧ name = "Harkins/Jura") ∨
  model_parameters !! "thickness_model" = Some (Some name) →
  name ∈ _THICKNESS_MODELS →
  (name = "Halsey" ∧ t = thickness_halsey) ∨
  (name = "Harkins/Jura" ∧ t = thickness_harkins_jura) →
  Adsorbate_from_list isotherm.(gas) = inr adsorbate →
  adsorbate.(molar_mass) = inr mm →
  adsorbate.(liquid_density) isotherm.(t_exp) = inr ld →
  adsorbate.(surface_tension) isotherm.(t_exp) = inr st →
  meniscus_geometry (dict_get model_parameters "branch") pore_geometry
    = inr mg →
  meso_engine_event psd_model = Some engine →
  ∃ loading pressure rest,
    trace (mesopore_size_distribution isotherm psd_model pore_geometry
             verbose model_parameters)
    = property_lookups isotherm
      ++ [Call_meniscus_geometry (dict_get model_parameters "branch")
            pore_geometry;
          engine loading pressure pore_geometry t
            (λ p, kelvin_radius_std p mg isotherm.(t_exp) ld mm st)
            ld mm]
      ++ rest.
Proof.
  intros Hpre Hdata Hchoice Hreg Ht Hads Hmm Hld Hst Hmg Hengine.
  assert ((if dict_has model_parameters "thickness_model"
           then dict_get model_parameters "thickness_model"
           else Some "Harkins/Jura") = Some name) as Htm.
  { unfold dict_has, dict_get. destruct Hchoice as [[-> ->] | ->].
    - by rewrite bool_decide_eq_false_2 by (by intros [? ?]).
    - by rewrite bool_decide_eq_true_2 by eauto. }
  unfold mesopore_size_distribution.
  rewrite preconditions_pass by done. cbv zeta.
  rewrite Htm, py_in_Some, (bool_decide_eq_true_2 (name ∈ _)), Hads by done.
  unfold meso_engine_event in Hengine.
  destruct Hdata as [(Hb & [l Hl] & [p Hp]) | (Hb & [l Hl])];
    rewrite Hb in *; simpl py_in; simpl negb; decide_conditions; run.
  all: rewrite Hmm; run; rewrite Hld; run; rewrite Hst; run.
  all: rewrite ?Hl, ?Hp, Hmg; unfold reversed; run; decide_conditions; run.
  all: destruct Ht as [[-> ->] | [-> ->]]; decide_conditions.
  all: repeat case_bool_decide; simplify_eq; decide_conditions; run.
  all: call_outcome; unfold property_lookups; do 3 eexists; reflexivity.
Qed.

(** X9: on a call that passes validation, the microporous operation looks
    up the molecular diameter, the polarizability, the magnetic
    susceptibility and the surface density of the adsorbate, in this order,
    and hands them to the Horvath-Kawazoe engine as a dict under these four
    names, together with the experiment temperature and the pore
    geometry. *)
Theorem micropore_engine_arguments isotherm psd_model pore_geometry verbose
    model_parameters adsorbate md po ms sd :
  first_failed_precondition _MICRO_PSD_MODELS isotherm psd_model
    pore_geometry = None →
  adsorbent_usable model_parameters →
  Adsorbate_from_list isotherm.(gas) = inr adsorbate →
  adsorbate.(get_prop) "molecular_diameter" = inr md →
  adsorbate.(get_prop) "polarizability" = inr po →
  adsorbate.(get_prop) "magnetic_susceptibility" = inr ms →
  adsorbate.(get_prop) "surface_density" = inr sd →
  ∃ adsorbent rest,
    trace (micropore_size_distribution isotherm psd_model pore_geometry
             verbose model_parameters)
    = [Call_Adsorbate_from_list isotherm.(gas);
       Call_get_prop "molecular_diameter";
       Call_get_prop "polarizability";
       Call_get_prop "magnetic_susceptibility";
       Call_get_prop "surface_density";
       Call_psd_horvath_kawazoe (isotherm.(loading_ads) "mmol")
         isotherm.(pressure_ads) isotherm.(t_exp) pore_geometry
         (isotherm.(loading_at) 0.9%float)
         {[ "molecular_diameter" := md; "polarizability" := po;
            "magnetic_susceptibility" := ms; "surface_density" := sd ]}
         adsorbent]
      ++ rest.
Proof.
  intros Hpre Had Hads Hmd Hpo Hms Hsd.
  destruct (adsorbent_resolved _ Had) as (am & Ham & Hreg & Hname & _).
  assert (psd_model = Some "HK") as ->.
  { revert Hpre. unfold first_failed_precondition, _MICRO_PSD_MODELS.
    destruct psd_model as [name|]; repeat case_bool_decide; try done.
    intros _. f_equal. by apply list_elem_of_singleton. }
  unfold micropore_size_distribution.
  rewrite preconditions_pass by done. cbv zeta.
  rewrite Ham, Hreg, Hads. simpl negb. run.
  rewrite Hmd. run. rewrite Hpo. run. rewrite Hms. run. rewrite Hsd. run.
  decide_conditions. run.
  destruct Hname as [-> | ->]; decide_conditions; run.
  all: call_outcome; do 2 eexists; reflexivity.
Qed.

End wiring.

(** ** The further statements on concrete inputs *)

Lemma unread_configuration_ignored_witness :
  @mesopore_size_distribution Sample.collaborators Sample.iso (Some "BJH")
    "cylinder" false
    {[ "branch" := Some "adsorption"; "thicknes_model" := Some "Halsey" ]}
  = @mesopore_size_distribution Sample.collaborators Sample.iso (Some "BJH")
      "cylinder" false {[ "branch" := Some "adsorption" ]} ∧
  @micropore_size_distribution Sample.collaborators Sample.iso (Some "HK")
    "slit" false {[ "adsorbent" := Some "OxideIon(SF)" ]}
  = @micropore_size_distribution Sample.collaborators Sample.iso (Some "HK")
      "slit" false ∅.
Proof.
  split.
  - apply (proj1 (@unread_configuration_ignored Sample.collaborators
                    Sample.iso (Some "BJH") "cylinder" "kernel.csv" false
                    {[ "branch" := Some "adsorption" ]}
                    {[ "branch" := Some "adsorption";
                       "thicknes_model" := Some "Halsey" ]}));
      reflexivity.
  - apply (proj1 (proj2 (@unread_configuration_ignored Sample.collaborators
                           Sample.iso (Some "HK") "slit" "kernel.csv" false
                           ∅ {[ "adsorbent" := Some "OxideIon(SF)" ]})));
      reflexivity.
Defined.

Lemma only_requested_branch_read_witness :
  @mesopore_size_distribution Sample.collaborators Sample.iso (Some "BJH")
    "cylinder" false {[ "branch" := Some "adsorption" ]}
  = @mesopore_size_distribution Sample.collaborators
      (Sample.without_des Sample.iso) (Some "BJH") "cylinder" false
      {[ "branch" := Some "adsorption" ]} ∧
  @mesopore_size_distribution Sample.collaborators Sample.iso (Some "DH")
    "cylinder" false {[ "branch" := Some "desorption" ]}
  = @mesopore_size_distribution Sample.collaborators
      (Sample.without_ads Sample.iso) (Some "DH") "cylinder" false
      {[ "branch" := Some "desorption" ]} ∧
  @micropore_size_distribution Sample.collaborators Sample.iso (Some "HK")
    "slit" false ∅
  = @micropore_size_distribution Sample.collaborators
      (Sample.without_des Sample.iso) (Some "HK") "slit" false ∅.
Proof.
  repeat apply conj.
  - apply (proj1 (@only_requested_branch_read Sample.collaborators
                    Sample.iso (Sample.without_des Sample.iso) (Some "BJH")
                    "cylinder" false {[ "branch" := Some "adsorption" ]}));
      [reflexivity|by repeat split].
  - apply (proj1 (proj2 (@only_requested_branch_read Sample.collaborators
                           Sample.iso (Sample.without_ads Sample.iso)
                           (Some "DH") "cylinder" false
                           {[ "branch" := Some "desorption" ]})));
      [reflexivity|by repeat split].
  - apply (proj2 (proj2 (@only_requested_branch_read Sample.collaborators
                           Sample.iso (Sample.without_des Sample.iso)
                           (Some "HK") "slit" false ∅)));
      [by repeat split|reflexivity].
Defined.

Lemma dft_outcomes_witness :
  ((∃ s,
      @psd_dft_kernel_fit Fixtures.no_kernel Sample.iso.(pressure_ads)
        (Sample.iso.(loading_ads) "mmol") "kernel.csv" = inl s ∧
      Propagated "FileNotFoundError" = Propagated s ∧
      trace (@dft_size_distribution Fixtures.no_kernel Sample.iso
               "kernel.csv" true ∅)
      = [Call_psd_dft_kernel_fit Sample.iso.(pressure_ads)
           (Sample.iso.(loading_ads) "mmol") "kernel.csv"]) ∨
   (∃ pore_widths pore_dist s,
      @psd_dft_kernel_fit Fixtures.no_kernel Sample.iso.(pressure_ads)
        (Sample.iso.(loading_ads) "mmol") "kernel.csv"
      = inr (pore_widths, pore_dist) ∧
      true = true ∧
      @psd_plot Fixtures.no_kernel pore_widths pore_dist None None
      = inl s ∧
      Propagated "FileNotFoundError" = Propagated s)) ∧
  ∃ pore_widths pore_dist,
    @psd_dft_kernel_fit Sample.collaborators Sample.iso.(pressure_ads)
      (Sample.iso.(loading_ads) "mmol") "kernel.csv"
    = inr (pore_widths, pore_dist) ∧
    (true = true →
     @psd_plot Sample.collaborators pore_widths pore_dist None None
     = inr ()) ∧
    ({[ "pore_widths" := [0.1; 0.3; 0.5; 0.7; 0.9; 0.99]%float;
        "pore_distribution" := [1; 2; 3; 4; 5; 6]%float ]}
       : gmap string ndarray)
    = {[ "pore_widths" := pore_widths; "pore_distribution" := pore_dist ]}.
Proof.
  split.
  - apply (proj1 (@dft_outcomes Fixtures.no_kernel Sample.iso "kernel.csv"
                    true ∅)).
    reflexivity.
  - apply (proj2 (@dft_outcomes Sample.collaborators Sample.iso "kernel.csv"
                    true ∅)).
    reflexivity.
Defined.

Lemma unknown_adsorbate_propagates_witness :
  @mesopore_size_distribution Sample.collaborators Fixtures.xenon
    (Some "BJH") "cylinder" true {[ "branch" := Some "adsorption" ]}
  = ([Call_Adsorbate_from_list "Xe"], inl (Propagated "ParameterError")) ∧
  @micropore_size_distribution Sample.collaborators Fixtures.xenon
    (Some "HK") "slit" true ∅
  = ([Call_Adsorbate_from_list "Xe"], inl (Propagated "ParameterError")).
Proof.
  split.
  - apply (proj1 (@unknown_adsorbate_propagates Sample.collaborators
                    Fixtures.xenon (Some "BJH") "cylinder" true
                    {[ "branch" := Some "adsorption" ]} "ParameterError"
                    eq_refl)).
    split; [vm_compute; reflexivity|].
    split; [by left|by apply sample_thickness_default].
  - apply (proj2 (@unknown_adsorbate_propagates Sample.collaborators
                    Fixtures.xenon (Some "HK") "slit" true ∅
                    "ParameterError" eq_refl));
      [vm_compute; reflexivity|by apply sample_adsorbent_default].
Defined.

Lemma mesopore_engine_arguments_witness :
  ∃ loading pressure rest,
    trace (@mesopore_size_distribution Sample.collaborators Sample.iso
             (Some "DH") "slit" false
             {[ "branch" := Some "desorption";
                "thickness_model" := Some "Halsey" ]})
    = property_lookups Sample.iso
      ++ [Call_meniscus_geometry (Some "desorption") "slit";
          Call_psd_dollimore_heal loading pressure "slit"
            (@thickness_halsey Sample.collaborators)
            (λ p, @kelvin_radius_std Sample.collaborators p "cylindrical"
                    Sample.iso.(t_exp) 0.8076%float 28.0134%float
                    8.85%float)
            0.8076%float 28.0134%float]
      ++ rest.
Proof.
  edestruct (@mesopore_engine_arguments Sample.collaborators Sample.iso
               (Some "DH") "slit" false
               {[ "branch" := Some "desorption";
                  "thickness_model" := Some "Halsey" ]}
               Sample.nitrogen 28.0134%float 0.8076%float 8.85%float
               "cylindrical" Call_psd_dollimore_heal "Halsey"
               (@thickness_halsey Sample.collaborators))
    as (loading & pressure & rest & Htrace);
    [vm_compute; reflexivity
    |right; split; [reflexivity|by eexists]
    |by right
    |by apply (bool_decide_eq_true_1 (_ ∈ _))
    |by left
    |reflexivity..
    |].
  exists loading, pressure, rest. exact Htrace.
Defined.

Lemma micropore_engine_arguments_witness :
  ∃ adsorbent rest,
    trace (@micropore_size_distribution Sample.collaborators Sample.iso
             (Some "HK") "slit" false ∅)
    = [Call_Adsorbate_from_list "N2";
       Call_get_prop "molecular_diameter";
       Call_get_prop "polarizability";
       Call_get_prop "magnetic_susceptibility";
       Call_get_prop "surface_density";
       Call_psd_horvath_kawazoe (Sample.iso.(loading_ads) "mmol")
         Sample.iso.(pressure_ads) Sample.iso.(t_exp) "slit"
         (Sample.iso.(loading_at) 0.9%float)
         {[ "molecular_diameter" := 1%float; "polarizability" := 1%float;
            "magnetic_susceptibility" := 1%float;
            "surface_density" := 1%float ]}
         adsorbent]
      ++ rest.
Proof.
  edestruct (@micropore_engine_arguments Sample.collaborators Sample.iso
               (Some "HK") "slit" false ∅ Sample.nitrogen
               1%float 1%float 1%float 1%float)
    as (adsorbent & rest & Htrace);
    [vm_compute; reflexivity
    |by apply sample_adsorbent_default
    |reflexivity..
    |].
  exists adsorbent, rest. exact Htrace.
Defined.
